(** * QR attendance sessions of [db_manager.py]

    A shallow embedding of the business logic of [DatabaseManager]
    ([_count_valid_sessions_for_date], [start_qr_session],
    [get_active_qr_session], [scan_qr_code], [stop_qr_session]) over a keyed
    store, followed by the properties of the attendance-session protocol.

    Python dictionaries with a fixed shape become records, the polymorphic
    attendance value becomes an inductive type with one constructor per shape
    the code tests for, Python [int]s are [Z], the keyed collections of the
    backend are [gmap]s and Python [set]s are [gset]s.  Exceptions and the
    calls to the backend are threaded through a state-and-error monad whose
    state also records every write that reached the backend. *)

From Stdlib Require Import Ascii.
From stdpp Require Import base strings gmap list list_numbers pretty.

Local Open Scope Z_scope.

(** ** Data model *)

(** A [datetime], counted in microseconds (the resolution of
    [datetime.utcnow()]); the ISO-8601 strings the code stores are the
    printed form of these values. *)
Definition Time := Z.

(** One element of a ["sessions"] list:
    [{"id": ..., "name": ..., "status": ...}]; [None] is JSON [null]. *)
Record SessionMark := {
  m_id : string;
  m_name : string;
  m_status : option string
}.

(** The value stored under a date in a student's ["attendance"] dictionary.
    [ENull] is Python's [None]; a key that is missing reads as [None] too
    (see [py_get]).  [ESessions] is a dictionary that has the key
    ["sessions"], [EStatus] a dictionary without ["sessions"] that has the key
    ["status"] (and maybe ["count"]). *)
Inductive Entry :=
| ENull
| EStr (value : string)
| ESessions (sessions : list SessionMark) (updated_at : Time)
| EStatus (status : option string) (count : option Z).

Record Student := {
  s_id : string;
  s_attendance : gmap string Entry
}.

Record Class := {
  c_teacher_id : string;
  c_enrollment_mode : string;
  c_students : list Student;
  c_updated_at : option Time
}.

Record Enrollment := {
  e_student_id : string;
  e_student_record_id : string;
  e_status : string
}.

Record QRSession := {
  q_class_id : string;
  q_teacher_id : string;
  q_date : string;
  q_session_number : Z;
  q_started_at : Time;
  q_rotation_interval : Z;
  q_current_code : string;
  q_code_generated_at : Time;
  q_scanned_students : list string;
  q_status : string;
  q_last_scan_at : option Time;
  q_stopped_at : option Time;
  q_updated_at : option Time
}.

(** JSON values, as [json.loads] returns them.  A dictionary is an
    association list read with [dict_get]. *)
#[local] Unset Elimination Schemes.
Inductive json :=
| JNull
| JBool (b : bool)
| JNum (z : Z)
| JStr (s : string)
| JArr (items : list json)
| JObj (fields : list (string * json)).
#[local] Set Elimination Schemes.

Fixpoint dict_get {A : Type} (key : string) (fields : list (string * A)) : option A :=
  match fields with
  | [] => None
  | (k, v) :: rest => if String.eqb k key then Some v else dict_get key rest
  end.

(** [d.get(key)] on an attendance dictionary: [None] when the key is missing. *)
Definition py_get (attendance : gmap string Entry) (date : string) : Entry :=
  default ENull (attendance !! date).

(** Python truthiness of an attendance value ([if day_data:]). *)
Definition truthy (day_data : Entry) : bool :=
  match day_data with
  | ENull => false
  | EStr value => negb (String.eqb value "")
  | ESessions _ _ => true
  | EStatus _ _ => true
  end.

(** [f"session_{i}"] and [f"QR Session {i}"]. *)
Definition session_id (i : Z) : string := "session_" +:+ pretty i.
Definition session_name (i : Z) : string := "QR Session " +:+ pretty i.

(** [range(1, n + 1)]. *)
Definition range1 (n : Z) : list Z := seqZ 1 n.

(** ** [_count_valid_sessions_for_date] *)

(** The body of the loop over the students: the new value of
    [max_sessions]. *)
Definition count_step (date : string) (max_sessions : Z) (student : Student) : Z :=
  let day_data := py_get (s_attendance student) date in
  if truthy day_data then
    match day_data with
    | ESessions sessions _ =>
        let valid_sessions := filter (λ s, m_status s ≠ None) sessions in
        let session_count := Z.of_nat (length valid_sessions) in
        Z.max max_sessions session_count
    | EStatus status count =>
        match status with
        | Some _ => Z.max max_sessions (default 1 count)
        | None => max_sessions
        end
    | EStr _ => Z.max max_sessions 1
    | ENull => max_sessions
    end
  else max_sessions.

Definition _count_valid_sessions_for_date (class_data : Class) (date : string) : Z :=
  match c_students class_data with
  | [] => 0
  | students => fold_left (count_step date) students 0
  end.

(** ** The store and the monad of the operations *)

(** A write that reached the backend: [update_class], or
    [create_qr_session] / [update_qr_session]. *)
Inductive Write :=
| WClass (class_id : string)
| WSession (class_id date : string).

(** The records behind the [DatabaseBackend] interface, keyed as its
    methods address them, and the log of the writes made so far. *)
Record World := {
  w_classes : gmap string Class;
  w_enrollments : gmap string (list Enrollment);
  w_qr_sessions : gmap (string * string) QRSession;
  w_writes : list Write
}.

Inductive Exn :=
| ValueError (msg : string)
| AttributeError.

Inductive Result (A : Type) :=
| Ok (a : A)
| Raise (e : Exn).
Arguments Ok {A} a.
Arguments Raise {A} e.

(** A computation reads and writes the store and may raise; the store a
    raising computation leaves behind is the one it had reached. *)
Definition M (A : Type) : Type := World → Result A * World.

#[export] Instance M_ret : MRet M := λ A a w, (Ok a, w).
#[export] Instance M_bind : MBind M := λ A B f m w,
  match m w with
  | (Ok a, w') => f a w'
  | (Raise e, w') => (Raise e, w')
  end.

Definition raise {A : Type} (e : Exn) : M A := λ w, (Raise e, w).

(** [if cond: raise e]. *)
Definition raise_if (cond : bool) (e : Exn) : M unit :=
  if cond then raise e else mret ().

(** *** The backend methods the operations call *)

Definition get_class (class_id : string) : M (option Class) :=
  λ w, (Ok (w_classes w !! class_id), w).

Definition stamp_class (class_data : Class) (now : Time) : Class :=
  {| c_teacher_id := c_teacher_id class_data;
     c_enrollment_mode := c_enrollment_mode class_data;
     c_students := c_students class_data;
     c_updated_at := Some now |}.

(** [update_class] sets ['updated_at'] and overwrites the record. *)
Definition update_class (class_id : string) (class_data : Class) (now : Time) : M unit :=
  λ w, (Ok (),
        {| w_classes := <[class_id := stamp_class class_data now]> (w_classes w);
           w_enrollments := w_enrollments w;
           w_qr_sessions := w_qr_sessions w;
           w_writes := w_writes w ++ [WClass class_id] |}).

Definition get_enrollments (class_id : string) : M (list Enrollment) :=
  λ w, (Ok (default [] (w_enrollments w !! class_id)), w).

Definition get_qr_session (class_id date : string) : M (option QRSession) :=
  λ w, (Ok (w_qr_sessions w !! (class_id, date)), w).

Definition put_qr_session (class_id date : string) (session_data : QRSession) : M unit :=
  λ w, (Ok (),
        {| w_classes := w_classes w;
           w_enrollments := w_enrollments w;
           w_qr_sessions := <[(class_id, date) := session_data]> (w_qr_sessions w);
           w_writes := w_writes w ++ [WSession class_id date] |}).

Definition create_qr_session (class_id date : string) (session_data : QRSession) : M unit :=
  put_qr_session class_id date session_data.

Definition stamp_session (session_data : QRSession) (now : Time) : QRSession :=
  {| q_class_id := q_class_id session_data;
     q_teacher_id := q_teacher_id session_data;
     q_date := q_date session_data;
     q_session_number := q_session_number session_data;
     q_started_at := q_started_at session_data;
     q_rotation_interval := q_rotation_interval session_data;
     q_current_code := q_current_code session_data;
     q_code_generated_at := q_code_generated_at session_data;
     q_scanned_students := q_scanned_students session_data;
     q_status := q_status session_data;
     q_last_scan_at := q_last_scan_at session_data;
     q_stopped_at := q_stopped_at session_data;
     q_updated_at := Some now |}.

(** [update_qr_session] sets ['updated_at'] in the dictionary it is given,
    which is the caller's own object, and overwrites the record: the
    stamped dictionary is returned here so that the caller goes on with it. *)
Definition update_qr_session (class_id date : string) (session_data : QRSession) (now : Time)
  : M QRSession :=
  let session_data := stamp_session session_data now in
  put_qr_session class_id date session_data ;; mret session_data.

(** ** The attendance value of one student *)

(** [sessions.insert(i, x)]: an index past the end appends. *)
Definition py_insert {A : Type} (i : nat) (x : A) (l : list A) : list A :=
  take i l ++ x :: drop i l.

Definition set_status (session : SessionMark) (status : string) : SessionMark :=
  {| m_id := m_id session; m_name := m_name session; m_status := Some status |}.

(** [for session in sessions: if session.get('id') == session_id:
      session['status'] = status; break]. *)
Fixpoint set_first_status (session_id : string) (status : string)
    (sessions : list SessionMark) : list SessionMark :=
  match sessions with
  | [] => []
  | session :: rest =>
      if String.eqb (m_id session) session_id
      then set_status session status :: rest
      else session :: set_first_status session_id status rest
  end.

(** The list built when the value was a string or [None]: session [1] keeps a
    string value, session [qr_session_number] gets [last], the others ["A"].
    [scan_qr_code] passes ["P"] for [last] and [stop_qr_session] ["A"]. *)
Definition fresh_sessions (qr_session_number : Z) (current_value : Entry) (last : string)
  : list SessionMark :=
  (λ i, {| m_id := session_id i;
           m_name := session_name i;
           m_status := Some (match current_value with
                             | EStr value =>
                                 if i =? 1 then value
                                 else if i =? qr_session_number then last else "A"
                             | _ => if i =? qr_session_number then last else "A"
                             end) |}) <$> range1 qr_session_number.

(** One round of the loop of [scan_qr_code] over an existing list. *)
Definition scan_step (existing_ids : gset string) (qr_session_number : Z)
    (sessions : list SessionMark) (i : Z) : list SessionMark :=
  let session_id := session_id i in
  if bool_decide (session_id ∉ existing_ids) then
    py_insert (Z.to_nat (i - 1))
      {| m_id := session_id;
         m_name := session_name i;
         m_status := Some (if i =? qr_session_number then "P" else "A") |} sessions
  else if i =? qr_session_number then set_first_status session_id "P" sessions
  else sessions.

(** One round of the loop of [stop_qr_session] over an existing list. *)
Definition stop_step (existing_ids : gset string)
    (sessions : list SessionMark) (i : Z) : list SessionMark :=
  let session_id := session_id i in
  if bool_decide (session_id ∉ existing_ids) then
    py_insert (Z.to_nat (i - 1))
      {| m_id := session_id; m_name := session_name i; m_status := Some "A" |} sessions
  else sessions.

Definition existing_ids (sessions : list SessionMark) : gset string :=
  list_to_set (m_id <$> sessions).

Definition set_entry (student : Student) (date : string) (value : Entry) : Student :=
  {| s_id := s_id student; s_attendance := <[date := value]> (s_attendance student) |}.

(** Lines 787-832 of [scan_qr_code]: the student record after the scan. *)
Definition scan_mark (qr_session_number : Z) (date : string) (now : Time)
    (student_record : Student) : Student :=
  let current_value := py_get (s_attendance student_record) date in
  if qr_session_number =? 1 then set_entry student_record date (EStr "P")
  else
    match current_value with
    | EStr _ | ENull =>
        set_entry student_record date
          (ESessions (fresh_sessions qr_session_number current_value "P") now)
    | ESessions sessions _ =>
        let sessions :=
          fold_left (scan_step (existing_ids sessions) qr_session_number)
                    (range1 qr_session_number) sessions in
        set_entry student_record date (ESessions sessions now)
    | EStatus _ _ => student_record
    end.

(** Lines 887-923 of [stop_qr_session]: the record of a student that the
    sweep visits. *)
Definition stop_mark (qr_session_number : Z) (date : string) (now : Time)
    (student : Student) : Student :=
  let current_value := py_get (s_attendance student) date in
  if qr_session_number =? 1 then set_entry student date (EStr "A")
  else
    match current_value with
    | EStr _ | ENull =>
        set_entry student date
          (ESessions (fresh_sessions qr_session_number current_value "A") now)
    | ESessions sessions _ =>
        let sessions :=
          fold_left (stop_step (existing_ids sessions))
                    (range1 qr_session_number) sessions in
        set_entry student date (ESessions sessions now)
    | EStatus _ _ => student
    end.

(** ** The operations of [DatabaseManager] *)

(** The readings of [datetime.utcnow()] taken during one call are the single
    instant [now] the operation is given; the string [_generate_qr_code]
    draws is the argument [code]. *)



(** [elapsed >= seconds], for [elapsed = delta.total_seconds()] and [delta]
    a difference of two instants. *)
Definition total_seconds_ge (delta : Z) (seconds : Z) : bool :=
  seconds * 1000000 <=? delta.

Definition start_qr_session (class_id teacher_id date : string) (rotation_interval : Z)
    (now : Time) (code : string) : M QRSession :=
  class_data ← get_class class_id;
  match class_data with
  | None => raise (ValueError "Class not found or unauthorized")
  | Some class_data =>
      raise_if (negb (String.eqb (c_teacher_id class_data) teacher_id))
               (ValueError "Class not found or unauthorized") ;;
      let enrollment_mode := c_enrollment_mode class_data in
      raise_if (negb (String.eqb enrollment_mode "enrollment_via_id"))
               (ValueError "QR attendance is only available for classes with student enrollment via Class ID") ;;
      let valid_session_count := _count_valid_sessions_for_date class_data date in
      existing_session ← get_qr_session class_id date;
      raise_if (match existing_session with
                | Some existing_session => String.eqb (q_status existing_session) "active"
                | None => false
                end)
               (ValueError "There is already an active QR session for this date. Please stop it first.") ;;
      let session_number := valid_session_count + 1 in
      let qr_session_data :=
        {| q_class_id := class_id;
           q_teacher_id := teacher_id;
           q_date := date;
           q_session_number := session_number;
           q_started_at := now;
           q_rotation_interval := rotation_interval;
           q_current_code := code;
           q_code_generated_at := now;
           q_scanned_students := [];
           q_status := "active";
           q_last_scan_at := None;
           q_stopped_at := None;
           q_updated_at := None |} in
      create_qr_session class_id date qr_session_data ;;
      mret qr_session_data
  end.

Definition rotate (session_data : QRSession) (code : string) (now : Time) : QRSession :=
  {| q_class_id := q_class_id session_data;
     q_teacher_id := q_teacher_id session_data;
     q_date := q_date session_data;
     q_session_number := q_session_number session_data;
     q_started_at := q_started_at session_data;
     q_rotation_interval := q_rotation_interval session_data;
     q_current_code := code;
     q_code_generated_at := now;
     q_scanned_students := q_scanned_students session_data;
     q_status := q_status session_data;
     q_last_scan_at := q_last_scan_at session_data;
     q_stopped_at := q_stopped_at session_data;
     q_updated_at := q_updated_at session_data |}.

Definition get_active_qr_session (class_id date : string) (now : Time) (code : string)
  : M (option QRSession) :=
  session_data ← get_qr_session class_id date;
  match session_data with
  | None => mret None
  | Some session_data =>
      if negb (String.eqb (q_status session_data) "active") then mret None
      else
        let code_time := q_code_generated_at session_data in
        if total_seconds_ge (now - code_time) (q_rotation_interval session_data) then
          let session_data := rotate session_data code now in
          session_data ← update_qr_session class_id date session_data now;
          mret (Some session_data)
        else mret (Some session_data)
  end.

Record ScanResult := {
  scan_success : bool;
  scan_message : string;
  scan_count : Z;
  scan_session_number : Z;
  scan_date : string
}.

Definition record_scan (session_data : QRSession) (scanned : list string) (now : Time)
  : QRSession :=
  {| q_class_id := q_class_id session_data;
     q_teacher_id := q_teacher_id session_data;
     q_date := q_date session_data;
     q_session_number := q_session_number session_data;
     q_started_at := q_started_at session_data;
     q_rotation_interval := q_rotation_interval session_data;
     q_current_code := q_current_code session_data;
     q_code_generated_at := q_code_generated_at session_data;
     q_scanned_students := scanned;
     q_status := q_status session_data;
     q_last_scan_at := Some now;
     q_stopped_at := q_stopped_at session_data;
     q_updated_at := q_updated_at session_data |}.

Definition set_students (class_data : Class) (students : list Student) : Class :=
  {| c_teacher_id := c_teacher_id class_data;
     c_enrollment_mode := c_enrollment_mode class_data;
     c_students := students;
     c_updated_at := c_updated_at class_data |}.

(** [current_code != qr_code_value]: a string equals no value of another
    type. *)
Definition py_eq_str (s : string) (v : json) : bool :=
  match v with
  | JStr s' => String.eqb s s'
  | _ => false
  end.

Section Scan.

(** [json.loads]: [None] when it raises. *)
Variable json_loads : string → option json.

(** Lines 744-748: a dictionary is asked for its ["code"] ([None] when it
    has none); on any other value [.get] raises, and the bare [except]
    takes the input itself, as it does when decoding fails. *)
Definition qr_code_value (qr_code : string) : json :=
  match json_loads qr_code with
  | Some (JObj qr_data) => default JNull (dict_get "code" qr_data)
  | Some _ => JStr qr_code
  | None => JStr qr_code
  end.

Definition scan_qr_code (student_id class_id qr_code date : string) (now : Time)
  : M ScanResult :=
  session_data ← get_qr_session class_id date;
  match session_data with
  | None => raise (ValueError "No active QR session")
  | Some session_data =>
      raise_if (negb (String.eqb (q_status session_data) "active"))
               (ValueError "No active QR session") ;;
      let qr_code_value := qr_code_value qr_code in
      raise_if (negb (py_eq_str (q_current_code session_data) qr_code_value))
               (ValueError "Invalid or expired QR code") ;;
      let qr_session_number := q_session_number session_data in
      all_enrollments ← get_enrollments class_id;
      match List.find (λ e, String.eqb (e_student_id e) student_id
                              && String.eqb (e_status e) "active") all_enrollments with
      | None => raise (ValueError "Student not actively enrolled in this class")
      | Some enrollment =>
          let student_record_id := e_student_record_id enrollment in
          class_data ← get_class class_id;
          match class_data with
          | None => raise (ValueError "Class not found")
          | Some class_data =>
              let students := c_students class_data in
              match list_find (λ s, s_id s = student_record_id) students with
              | None => raise (ValueError "Student record not found")
              | Some (k, student_record) =>
                  let students :=
                    <[k := scan_mark qr_session_number date now student_record]> students in
                  update_class class_id (set_students class_data students) now ;;
                  let scanned := q_scanned_students session_data in
                  let scanned :=
                    if bool_decide (student_record_id ∈ scanned) then scanned
                    else scanned ++ [student_record_id] in
                  update_qr_session class_id date (record_scan session_data scanned now) now ;;
                  mret {| scan_success := true;
                          scan_message := "Attendance marked as Present (Session #"
                                          +:+ pretty qr_session_number +:+ ")";
                          scan_count := qr_session_number;
                          scan_session_number := qr_session_number;
                          scan_date := date |}
              end
          end
      end
  end.

End Scan.

Record StopResult := {
  stop_success : bool;
  scanned_count : Z;
  absent_count : Z;
  stop_date : string;
  stop_session_number : Z
}.

Definition close_session (session_data : QRSession) (now : Time) : QRSession :=
  {| q_class_id := q_class_id session_data;
     q_teacher_id := q_teacher_id session_data;
     q_date := q_date session_data;
     q_session_number := q_session_number session_data;
     q_started_at := q_started_at session_data;
     q_rotation_interval := q_rotation_interval session_data;
     q_current_code := q_current_code session_data;
     q_code_generated_at := q_code_generated_at session_data;
     q_scanned_students := q_scanned_students session_data;
     q_status := "stopped";
     q_last_scan_at := q_last_scan_at session_data;
     q_stopped_at := Some now;
     q_updated_at := q_updated_at session_data |}.

(** The test of the sweep: [student_record_id in active_student_ids and
    student_record_id not in scanned_ids]. *)
Definition swept (active_student_ids scanned_ids : gset string) (student : Student) : bool :=
  let student_record_id := s_id student in
  bool_decide (student_record_id ∈ active_student_ids)
  && bool_decide (student_record_id ∉ scanned_ids).

(** The loop over the students: the records after the sweep, in place, and
    [marked_absent]. *)
Fixpoint sweep (qr_session_number : Z) (date : string) (now : Time)
    (active_student_ids scanned_ids : gset string) (students : list Student)
  : list Student * Z :=
  match students with
  | [] => ([], 0)
  | student :: rest =>
      let '(rest, marked_absent) :=
        sweep qr_session_number date now active_student_ids scanned_ids rest in
      if swept active_student_ids scanned_ids student
      then (stop_mark qr_session_number date now student :: rest, marked_absent + 1)
      else (student :: rest, marked_absent)
  end.

Definition stop_qr_session (class_id teacher_id date : string) (now : Time) : M StopResult :=
  session_data ← get_qr_session class_id date;
  match session_data with
  | None => raise (ValueError "No active session")
  | Some session_data =>
      raise_if (negb (String.eqb (q_status session_data) "active"))
               (ValueError "No active session") ;;
      raise_if (negb (String.eqb (q_teacher_id session_data) teacher_id))
               (ValueError "Unauthorized") ;;
      let qr_session_number := q_session_number session_data in
      let scanned_ids : gset string := list_to_set (q_scanned_students session_data) in
      all_enrollments ← get_enrollments class_id;
      let active_student_ids : gset string :=
        list_to_set (e_student_record_id <$>
                     filter (λ e, e_status e = "active") all_enrollments) in
      class_data ← get_class class_id;
      match class_data with
      | None => raise AttributeError
      | Some class_data =>
          let '(students, marked_absent) :=
            sweep qr_session_number date now active_student_ids scanned_ids
                  (c_students class_data) in
          update_class class_id (set_students class_data students) now ;;
          update_qr_session class_id date (close_session session_data now) now ;;
          mret {| stop_success := true;
                  scanned_count := Z.of_nat (size scanned_ids);
                  absent_count := marked_absent;
                  stop_date := date;
                  stop_session_number := qr_session_number |}
      end
  end.

(** ** A decoder for the examples

    The properties below hold for every [json_loads].  The examples run
    [scan_qr_code] with [json_decode], which decodes the JSON texts made of
    objects, arrays, strings without escapes, integers, [true], [false] and
    [null], as [json.loads] does, and rejects every other input. *)

Module Decoder.

Definition quote : Ascii.ascii := Ascii.ascii_of_nat 34.

Definition is_ws (c : Ascii.ascii) : bool :=
  let n := Ascii.nat_of_ascii c in
  (n =? 32)%nat || (n =? 9)%nat || (n =? 10)%nat || (n =? 13)%nat.

Definition is_digit (c : Ascii.ascii) : bool :=
  let n := Ascii.nat_of_ascii c in (48 <=? n)%nat && (n <=? 57)%nat.

Fixpoint skip_ws (s : string) : string :=
  match s with
  | String c rest => if is_ws c then skip_ws rest else s
  | EmptyString => s
  end.

Fixpoint strip_prefix (p s : string) : option string :=
  match p, s with
  | EmptyString, _ => Some s
  | String a p, String b s => if Ascii.eqb a b then strip_prefix p s else None
  | _, _ => None
  end.

(** The characters up to the closing quote, and what follows it. *)
Fixpoint read_string (s : string) : option (string * string) :=
  match s with
  | EmptyString => None
  | String c rest =>
      if Ascii.eqb c quote then Some (EmptyString, rest)
      else if Ascii.eqb c "\"%char then None
      else if (Ascii.nat_of_ascii c <? 32)%nat then None
      else '(str, rest) ← read_string rest; Some (String c str, rest)
  end.

Fixpoint read_digits (acc : Z) (s : string) : Z * string :=
  match s with
  | String c rest =>
      if is_digit c
      then read_digits (10 * acc + Z.of_nat (Ascii.nat_of_ascii c - 48)) rest
      else (acc, s)
  | EmptyString => (acc, s)
  end.

(** An integer without sign; a fraction or an exponent is rejected. *)
Definition read_nat (s : string) : option (Z * string) :=
  match s with
  | String c rest =>
      if negb (is_digit c) then None
      else
        let '(z, rest) :=
          if Ascii.eqb c "0"%char then (0, rest) else read_digits 0 s in
        match rest with
        | String d _ =>
            if Ascii.eqb d "."%char || Ascii.eqb d "e"%char || Ascii.eqb d "E"%char
            then None else Some (z, rest)
        | EmptyString => Some (z, rest)
        end
  | EmptyString => None
  end.

(** [d[key] = v]: a repeated key keeps its place and takes the new value. *)
Fixpoint dict_set (key : string) (v : json) (fields : list (string * json))
  : list (string * json) :=
  match fields with
  | [] => [(key, v)]
  | (k, v') :: rest =>
      if String.eqb k key then (k, v) :: rest else (k, v') :: dict_set key v rest
  end.

Fixpoint decode_value (fuel : nat) (s : string) : option (json * string) :=
  match fuel with
  | O => None
  | S fuel =>
      match skip_ws s with
      | String c rest =>
          if Ascii.eqb c quote then
            '(str, rest) ← read_string rest; Some (JStr str, rest)
          else if Ascii.eqb c "["%char then
            match skip_ws rest with
            | String "]"%char rest => Some (JArr [], rest)
            | rest => '(items, rest) ← decode_items fuel rest; Some (JArr items, rest)
            end
          else if Ascii.eqb c "{"%char then
            match skip_ws rest with
            | String "}"%char rest => Some (JObj [], rest)
            | rest => '(fields, rest) ← decode_fields fuel [] rest; Some (JObj fields, rest)
            end
          else if Ascii.eqb c "-"%char then
            '(z, rest) ← read_nat rest; Some (JNum (- z), rest)
          else if is_digit c then
            '(z, rest) ← read_nat (String c rest); Some (JNum z, rest)
          else
            match strip_prefix "null" (String c rest) with
            | Some rest => Some (JNull, rest)
            | None =>
                match strip_prefix "true" (String c rest) with
                | Some rest => Some (JBool true, rest)
                | None =>
                    rest ← strip_prefix "false" (String c rest);
                    Some (JBool false, rest)
                end
            end
      | EmptyString => None
      end
  end
with decode_items (fuel : nat) (s : string) : option (list json * string) :=
  match fuel with
  | O => None
  | S fuel =>
      '(v, rest) ← decode_value fuel s;
      match skip_ws rest with
      | String ","%char rest => '(items, rest) ← decode_items fuel rest; Some (v :: items, rest)
      | String "]"%char rest => Some ([v], rest)
      | _ => None
      end
  end
with decode_fields (fuel : nat) (acc : list (string * json)) (s : string)
  : option (list (string * json) * string) :=
  match fuel with
  | O => None
  | S fuel =>
      match skip_ws s with
      | String c rest =>
          if negb (Ascii.eqb c quote) then None
          else
            '(key, rest) ← read_string rest;
            match skip_ws rest with
            | String ":"%char rest =>
                '(v, rest) ← decode_value fuel rest;
                let acc := dict_set key v acc in
                match skip_ws rest with
                | String ","%char rest => decode_fields fuel acc rest
                | String "}"%char rest => Some (acc, rest)
                | _ => None
                end
            | _ => None
            end
      | EmptyString => None
      end
  end.

Definition json_decode (s : string) : option json :=
  match decode_value (2 * String.length s + 2) s with
  | Some (v, rest) =>
      match skip_ws rest with
      | EmptyString => Some v
      | _ => None
      end
  | None => None
  end.

End Decoder.

(** ** Readings of the stored data used in the statements *)

(** What one attendance value contributes to the count of valid sessions. *)
Definition entry_sessions (day_data : Entry) : Z :=
  match day_data with
  | ESessions sessions _ =>
      Z.of_nat (length (filter (λ s, m_status s ≠ None) sessions))
  | EStatus (Some _) count => default 1 count
  | EStatus None _ => 0
  | EStr value => if String.eqb value "" then 0 else 1
  | ENull => 0
  end.

Definition student_sessions (date : string) (student : Student) : Z :=
  entry_sessions (py_get (s_attendance student) date).

(** The count as the specification words it: per student, the number of
    marks with a status for a structured value, [1] for a scalar value that
    is present, [1] for a string, [0] for a missing value; then the maximum
    over the students. *)
Definition claimed_entry_sessions (day_data : option Entry) : Z :=
  match day_data with
  | Some (ESessions sessions _) =>
      Z.of_nat (length (filter (λ s, m_status s ≠ None) sessions))
  | Some (EStatus _ _) => 1
  | Some (EStr _) => 1
  | Some ENull | None => 0
  end.

Definition claimed_count (class_data : Class) (date : string) : Z :=
  foldr Z.max 0 ((λ student, claimed_entry_sessions (s_attendance student !! date))
                   <$> c_students class_data).

(** The sum over the students, which the count is not. *)
Definition summed_count (class_data : Class) (date : string) : Z :=
  foldr Z.add 0 (student_sessions date <$> c_students class_data).

(** *** The store after a successful call *)

(** The enrollment [scan_qr_code] picks: the first active one of the
    student. *)
Definition find_enrollment (student_id : string) (all_enrollments : list Enrollment)
  : option Enrollment :=
  List.find (λ e, String.eqb (e_student_id e) student_id
                    && String.eqb (e_status e) "active") all_enrollments.

(** The ids [stop_qr_session] collects in [active_student_ids]. *)
Definition active_ids (all_enrollments : list Enrollment) : gset string :=
  list_to_set (e_student_record_id <$> filter (λ e, e_status e = "active") all_enrollments).

Definition add_scanned (student_record_id : string) (scanned : list string) : list string :=
  if bool_decide (student_record_id ∈ scanned) then scanned
  else scanned ++ [student_record_id].

Definition started_session (class_id teacher_id date : string) (rotation_interval : Z)
    (now : Time) (code : string) (session_number : Z) : QRSession :=
  {| q_class_id := class_id;
     q_teacher_id := teacher_id;
     q_date := date;
     q_session_number := session_number;
     q_started_at := now;
     q_rotation_interval := rotation_interval;
     q_current_code := code;
     q_code_generated_at := now;
     q_scanned_students := [];
     q_status := "active";
     q_last_scan_at := None;
     q_stopped_at := None;
     q_updated_at := None |}.

Definition with_session (class_id date : string) (session_data : QRSession) (w : World)
  : World :=
  {| w_classes := w_classes w;
     w_enrollments := w_enrollments w;
     w_qr_sessions := <[(class_id, date) := session_data]> (w_qr_sessions w);
     w_writes := w_writes w ++ [WSession class_id date] |}.

Definition with_class (class_id : string) (class_data : Class) (w : World) : World :=
  {| w_classes := <[class_id := class_data]> (w_classes w);
     w_enrollments := w_enrollments w;
     w_qr_sessions := w_qr_sessions w;
     w_writes := w_writes w ++ [WClass class_id] |}.

(** The class and the session a successful scan leaves, given the session
    [s], the class [cls] and the record [st] found at index [k]. *)
Definition scanned_class (s : QRSession) (cls : Class) (k : nat) (st : Student)
    (date : string) (now : Time) : Class :=
  stamp_class
    (set_students cls (<[k := scan_mark (q_session_number s) date now st]> (c_students cls)))
    now.

Definition scanned_session (s : QRSession) (student_record_id : string) (now : Time)
  : QRSession :=
  stamp_session
    (record_scan s (add_scanned student_record_id (q_scanned_students s)) now) now.

(** The class and the session a successful stop leaves. *)
Definition stopped_class (s : QRSession) (cls : Class) (all_enrollments : list Enrollment)
    (date : string) (now : Time) : Class :=
  stamp_class
    (set_students cls
       (sweep (q_session_number s) date now (active_ids all_enrollments)
              (list_to_set (q_scanned_students s)) (c_students cls)).1)
    now.

Definition stopped_session (s : QRSession) (now : Time) : QRSession :=
  stamp_session (close_session s now) now.


(** The value compared with [current_code] as the specification words it:
    the field ["code"] of an input that decodes to an object having it, and
    the input itself in every other case. *)
Definition claimed_code_value (json_loads : string → option json) (qr_code : string) : json :=
  match json_loads qr_code with
  | Some (JObj qr_data) =>
      match dict_get "code" qr_data with
      | Some v => v
      | None => JStr qr_code
      end
  | _ => JStr qr_code
  end.

(** *** Reading an attendance value *)

(** The first mark of a list that carries a given id. *)
Definition find_mark (id : string) (sessions : list SessionMark) : option SessionMark :=
  List.find (λ m, String.eqb (m_id m) id) sessions.

(** The mark a value holds for session [n]: the scalar for session [1], the
    status of the mark ["session_n"] of a structured value. *)
Definition mark_of (value : Entry) (n : Z) : option string :=
  match value with
  | EStr v => if n =? 1 then Some v else None
  | ESessions sessions _ => find_mark (session_id n) sessions ≫= m_status
  | _ => None
  end.





(** The mark the loops insert for a session that has none. *)
Definition new_mark (i : Z) (status : string) : SessionMark :=
  {| m_id := session_id i; m_name := session_name i; m_status := Some status |}.







(** *** Requests served while a session is open *)

(** A read of the active session or a scan, for the class and the date of the
    session. *)
Inductive Request :=
| Read (now : Time) (code : string)
| Scan (student_id qr_code : string) (now : Time).



(** *** Sequences of calls *)

(** A call of one of the four operations, for any class and date. *)
Inductive Call :=
| CStart (class_id teacher_id date : string) (rotation_interval : Z) (now : Time)
         (code : string)
| CRead (class_id date : string) (now : Time) (code : string)
| CScan (student_id class_id qr_code date : string) (now : Time)
| CStop (class_id teacher_id date : string) (now : Time).

(** The store a call leaves, whether it returns or raises. *)
Definition call (json_loads : string → option json) (w : World) (c : Call) : World :=
  match c with
  | CStart class_id teacher_id date rotation_interval now code =>
      (start_qr_session class_id teacher_id date rotation_interval now code w).2
  | CRead class_id date now code => (get_active_qr_session class_id date now code w).2
  | CScan student_id class_id qr_code date now =>
      (scan_qr_code json_loads student_id class_id qr_code date now w).2
  | CStop class_id teacher_id date now => (stop_qr_session class_id teacher_id date now w).2
  end.





(** *** Settled attendance values *)




(** ** The file backend

    [FileBackend] keeps one JSON file per record under [base_dir]. The files
    are modelled family by family, each family keyed by what its path is
    built from: a user by its id ([users/<id>/user.json]), a class by the
    teacher and the class id ([users/<teacher>/classes/class_<id>.json]), a
    student by its id, the enrollments of a class by the class id
    ([enrollments/class_<id>_enrollments.json]), and a QR session by its file
    name, which is built from two ids. Identifiers are names without path
    separator. A document is the dictionary [json.load] returns, as an
    association list in the order of its keys. *)

Module FileBackend.

Record Files := {
  user_dirs : gset string;
  user_files : gmap string (list (string * json));
  class_files : gmap (string * string) (list (string * json));
  student_files : gmap string (list (string * json));
  contact_files : gmap string (list (string * json));
  enrollment_files : gmap string (list (list (string * json)));
  qr_session_files : gmap string (list (string * json))
}.

(** [d[key] = v]: a key that is there keeps its place. *)
Fixpoint setitem (key : string) (v : json) (d : list (string * json))
  : list (string * json) :=
  match d with
  | [] => [(key, v)]
  | (k, v') :: rest =>
      if String.eqb k key then (k, v) :: rest else (k, v') :: setitem key v rest
  end.

(** [d.update(other)]. *)
Definition update (d other : list (string * json)) : list (string * json) :=
  fold_left (λ d kv, setitem kv.1 kv.2 d) other d.

(** [d.get(key)]: [None] when the key is missing. *)
Definition get (key : string) (d : list (string * json)) : json :=
  default JNull (dict_get key d).

(** Truth value of a JSON value ([if x:]). *)
Definition truthy_json (v : json) : bool :=
  match v with
  | JNull => false
  | JBool b => b
  | JNum z => negb (z =? 0)
  | JStr s => negb (String.eqb s "")
  | JArr items => match items with [] => false | _ => true end
  | JObj fields => match fields with [] => false | _ => true end
  end.

(** Truth value of a dictionary read from a file: [None] when the file is
    missing, and an empty dictionary, are false. *)
Definition nonempty (d : option (list (string * json))) : option (list (string * json)) :=
  match d with
  | Some [] => None
  | other => other
  end.

(** [f"class_{class_id}_{date}.json"]. *)
Definition qr_session_file (class_id date : string) : string :=
  "class_" +:+ class_id +:+ "_" +:+ date +:+ ".json".

Section Backend.

(** [os.listdir]: the entries of a directory, in some order. *)
Variable listdir : gset string → list string.
(** [datetime.isoformat]. *)
Variable isoformat : Time → string.
(** The text an f-string puts for a value. *)
Variable py_format : json → string.
(** [strftime("%Y%m%d_%H%M%S")]. *)
Variable strftime : Time → string.

Definition stamp (key : string) (now : Time) (d : list (string * json))
  : list (string * json) :=
  setitem key (JStr (isoformat now)) d.

(** *** Users *)

Definition create_user (user_id : string) (user_data : list (string * json)) (now : Time)
    (fs : Files) : Files :=
  {| user_dirs := {[user_id]} ∪ user_dirs fs;
     user_files := <[user_id := stamp "created_at" now user_data]> (user_files fs);
     class_files := class_files fs;
     student_files := student_files fs;
     contact_files := contact_files fs;
     enrollment_files := enrollment_files fs;
     qr_session_files := qr_session_files fs |}.

Definition get_user (user_id : string) (fs : Files) : option (list (string * json)) :=
  user_files fs !! user_id.

Definition update_user (user_id : string) (user_data : list (string * json)) (now : Time)
    (fs : Files) : Files :=
  {| user_dirs := {[user_id]} ∪ user_dirs fs;
     user_files := <[user_id := stamp "updated_at" now user_data]> (user_files fs);
     class_files := class_files fs;
     student_files := student_files fs;
     contact_files := contact_files fs;
     enrollment_files := enrollment_files fs;
     qr_session_files := qr_session_files fs |}.

(** [shutil.rmtree(user_dir)] when the directory exists: the user file and
    the class files under it go with it. *)
Definition delete_user (user_id : string) (fs : Files) : Files :=
  if bool_decide (user_id ∈ user_dirs fs) then
    {| user_dirs := user_dirs fs ∖ {[user_id]};
       user_files := delete user_id (user_files fs);
       class_files := filter (λ kv, kv.1.1 ≠ user_id) (class_files fs);
       student_files := student_files fs;
       contact_files := contact_files fs;
       enrollment_files := enrollment_files fs;
       qr_session_files := qr_session_files fs |}
  else fs.

(** The loop of [get_user_by_email] over the listed directories. *)
Fixpoint first_user_with (email : string) (fs : Files) (ids : list string)
  : option (list (string * json)) :=
  match ids with
  | [] => None
  | user_id :: rest =>
      match nonempty (get_user user_id fs) with
      | Some user =>
          if py_eq_str email (get "email" user) then Some user
          else first_user_with email fs rest
      | None => first_user_with email fs rest
      end
  end.

Definition get_user_by_email (email : string) (fs : Files)
  : option (list (string * json)) :=
  first_user_with email fs (listdir (user_dirs fs)).

(** *** Classes *)

Definition create_class (teacher_id class_id : string) (class_data : list (string * json))
    (now : Time) (fs : Files) : Files :=
  {| user_dirs := {[teacher_id]} ∪ user_dirs fs;
     user_files := user_files fs;
     class_files :=
       <[(teacher_id, class_id) := stamp "created_at" now class_data]> (class_files fs);
     student_files := student_files fs;
     contact_files := contact_files fs;
     enrollment_files := enrollment_files fs;
     qr_session_files := qr_session_files fs |}.

(** The loop of [get_class] over the listed directories. *)
Fixpoint first_class (class_id : string) (fs : Files) (teachers : list string)
  : option (list (string * json)) :=
  match teachers with
  | [] => None
  | teacher_id :: rest =>
      match nonempty (class_files fs !! (teacher_id, class_id)) with
      | Some class_data => Some class_data
      | None => first_class class_id fs rest
      end
  end.

Definition get_class (class_id : string) (fs : Files) : option (list (string * json)) :=
  first_class class_id fs (listdir (user_dirs fs)).

(** [update_class]: [None] when [os.path.join] raises [TypeError], for a
    ['teacher_id'] that is true and not a string. *)
Definition update_class (class_id : string) (class_data : list (string * json))
    (now : Time) (fs : Files) : option Files :=
  let teacher_id := get "teacher_id" class_data in
  let teacher_id :=
    if negb (truthy_json teacher_id) then
      match get_class class_id fs with
      | Some existing => get "teacher_id" existing
      | None => teacher_id
      end
    else teacher_id in
  if truthy_json teacher_id then
    match teacher_id with
    | JStr teacher_id =>
        Some {| user_dirs := {[teacher_id]} ∪ user_dirs fs;
                user_files := user_files fs;
                class_files :=
                  <[(teacher_id, class_id) := stamp "updated_at" now class_data]>
                    (class_files fs);
                student_files := student_files fs;
                contact_files := contact_files fs;
                enrollment_files := enrollment_files fs;
                qr_session_files := qr_session_files fs |}
    | _ => None
    end
  else Some fs.

(** The loop of [delete_class]: the first file found is removed. *)
Fixpoint delete_first_class (class_id : string) (fs : Files) (teachers : list string)
  : Files :=
  match teachers with
  | [] => fs
  | teacher_id :: rest =>
      match class_files fs !! (teacher_id, class_id) with
      | Some _ =>
          {| user_dirs := user_dirs fs;
             user_files := user_files fs;
             class_files := delete (teacher_id, class_id) (class_files fs);
             student_files := student_files fs;
             contact_files := contact_files fs;
             enrollment_files := enrollment_files fs;
             qr_session_files := qr_session_files fs |}
      | None => delete_first_class class_id fs rest
      end
  end.

Definition delete_class (class_id : string) (fs : Files) : Files :=
  delete_first_class class_id fs (listdir (user_dirs fs)).

(** The class files of a teacher's directory, by class id. *)
Definition class_ids (teacher_id : string) (fs : Files) : gset string :=
  list_to_set
    (omap (λ k : string * string, if decide (k.1 = teacher_id) then Some k.2 else None)
          (elements (dom (class_files fs)))).

Definition get_all_classes (teacher_id : string) (fs : Files)
  : list (list (string * json)) :=
  omap (λ class_id, nonempty (class_files fs !! (teacher_id, class_id)))
       (listdir (class_ids teacher_id fs)).

(** *** Students *)

Definition create_student (student_id : string) (student_data : list (string * json))
    (now : Time) (fs : Files) : Files :=
  {| user_dirs := user_dirs fs;
     user_files := user_files fs;
     class_files := class_files fs;
     student_files := <[student_id := stamp "created_at" now student_data]> (student_files fs);
     contact_files := contact_files fs;
     enrollment_files := enrollment_files fs;
     qr_session_files := qr_session_files fs |}.

Definition get_student (student_id : string) (fs : Files) : option (list (string * json)) :=
  student_files fs !! student_id.

Definition update_student (student_id : string) (student_data : list (string * json))
    (now : Time) (fs : Files) : Files :=
  {| user_dirs := user_dirs fs;
     user_files := user_files fs;
     class_files := class_files fs;
     student_files := <[student_id := stamp "updated_at" now student_data]> (student_files fs);
     contact_files := contact_files fs;
     enrollment_files := enrollment_files fs;
     qr_session_files := qr_session_files fs |}.

(** *** Contact messages *)

(** The file is named after the clock read first, the message stamped with
    the clock read second. *)
Definition save_contact_message (message_data : list (string * json))
    (now now' : Time) (fs : Files) : Files :=
  {| user_dirs := user_dirs fs;
     user_files := user_files fs;
     class_files := class_files fs;
     student_files := student_files fs;
     contact_files :=
       <[strftime now := stamp "created_at" now' message_data]> (contact_files fs);
     enrollment_files := enrollment_files fs;
     qr_session_files := qr_session_files fs |}.

(** *** Enrollments *)

Definition get_enrollments (class_id : string) (fs : Files) : list (list (string * json)) :=
  default [] (enrollment_files fs !! class_id).

Definition write_enrollments (class_id : string) (enrollments : list (list (string * json)))
    (fs : Files) : Files :=
  {| user_dirs := user_dirs fs;
     user_files := user_files fs;
     class_files := class_files fs;
     student_files := student_files fs;
     contact_files := contact_files fs;
     enrollment_files := <[class_id := enrollments]> (enrollment_files fs);
     qr_session_files := qr_session_files fs |}.

(** The file is named after the ['class_id'] of the data, whatever it is. *)
Definition create_enrollment (enrollment_data : list (string * json)) (now : Time)
    (fs : Files) : Files :=
  let class_id := py_format (get "class_id" enrollment_data) in
  let enrollments := get_enrollments class_id fs in
  write_enrollments class_id
    (enrollments ++ [stamp "created_at" now enrollment_data]) fs.

(** The loop of [update_enrollment]: the first enrollment of the student is
    updated. *)
Fixpoint update_first (student_id : string) (enrollment_data : list (string * json))
    (now : Time) (enrollments : list (list (string * json)))
  : list (list (string * json)) :=
  match enrollments with
  | [] => []
  | enrollment :: rest =>
      if py_eq_str student_id (get "student_id" enrollment)
      then stamp "updated_at" now (update enrollment enrollment_data) :: rest
      else enrollment :: update_first student_id enrollment_data now rest
  end.

Definition update_enrollment (class_id student_id : string)
    (enrollment_data : list (string * json)) (now : Time) (fs : Files) : Files :=
  write_enrollments class_id
    (update_first student_id enrollment_data now (get_enrollments class_id fs)) fs.

(** *** QR sessions *)

Definition write_qr_session (class_id date : string) (session_data : list (string * json))
    (fs : Files) : Files :=
  {| user_dirs := user_dirs fs;
     user_files := user_files fs;
     class_files := class_files fs;
     student_files := student_files fs;
     contact_files := contact_files fs;
     enrollment_files := enrollment_files fs;
     qr_session_files :=
       <[qr_session_file class_id date := session_data]> (qr_session_files fs) |}.

Definition create_qr_session (class_id date : string) (session_data : list (string * json))
    (fs : Files) : Files :=
  write_qr_session class_id date session_data fs.

Definition get_qr_session (class_id date : string) (fs : Files)
  : option (list (string * json)) :=
  qr_session_files fs !! qr_session_file class_id date.

Definition update_qr_session (class_id date : string) (session_data : list (string * json))
    (now : Time) (fs : Files) : Files :=
  write_qr_session class_id date (stamp "updated_at" now session_data) fs.

End Backend.

(** A file is in a directory that exists. *)
Definition dirs_ok (fs : Files) : Prop :=
  (∀ user_id, is_Some (user_files fs !! user_id) → user_id ∈ user_dirs fs) ∧
  (∀ teacher_id class_id,
     is_Some (class_files fs !! (teacher_id, class_id)) → teacher_id ∈ user_dirs fs).

(** The teachers under whose directory a class is stored. *)
Definition stored_under (class_id teacher_id : string) (fs : Files) : Prop :=
  is_Some (class_files fs !! (teacher_id, class_id)).

(** No file at all. *)
Definition no_files : Files :=
  {| user_dirs := ∅; user_files := ∅; class_files := ∅; student_files := ∅;
     contact_files := ∅; enrollment_files := ∅; qr_session_files := ∅ |}.

(** An f-string on the values the examples use. *)
Definition format_plain (v : json) : string :=
  match v with
  | JStr s => s
  | JNum z => pretty z
  | _ => "None"
  end.

End FileBackend.

(** A date such as [2024-01-15] has no underscore. *)
Definition no_underscore (s : string) : Prop :=
  "_"%char ∉ String.list_ascii_of_string s.

(** ** The manager over a backend

    [DatabaseManager] calls the backend it was built with, [FileBackend] or
    [MongoDBBackend], through the methods of [DatabaseBackend].  The
    operations are given here over any backend: a state [S] and the six
    methods the operations call.  The keyed store above is one backend, the
    one that gives back, under a class id and under a class id and a date,
    what was last written there.  [update_qr_session] returns the dictionary
    it was given, which it has stamped. *)

Module Backend.

Class DatabaseBackend (S : Type) := {
  get_class : string → S → option Class;
  update_class : string → Class → Time → S → S;
  get_enrollments : string → S → list Enrollment;
  get_qr_session : string → string → S → option QRSession;
  create_qr_session : string → string → QRSession → S → S;
  update_qr_session : string → string → QRSession → Time → S → QRSession * S
}.

End Backend.

(** The keyed store as a backend. *)
#[export] Instance keyed_store : Backend.DatabaseBackend World := {|
  Backend.get_class class_id w := w_classes w !! class_id;
  Backend.update_class class_id class_data now w :=
    (update_class class_id class_data now w).2;
  Backend.get_enrollments class_id w := default [] (w_enrollments w !! class_id);
  Backend.get_qr_session class_id date w := w_qr_sessions w !! (class_id, date);
  Backend.create_qr_session class_id date session_data w :=
    (create_qr_session class_id date session_data w).2;
  Backend.update_qr_session class_id date session_data now w :=
    (stamp_session session_data now,
     (update_qr_session class_id date session_data now w).2)
|}.

Module Manager.

Section Manager.

Context {S : Type} {backend : Backend.DatabaseBackend S}.

Variable json_loads : string → option json.

Definition start_qr_session (class_id teacher_id date : string) (rotation_interval : Z)
    (now : Time) (code : string) (s : S) : Result QRSession * S :=
  match Backend.get_class class_id s with
  | None => (Raise (ValueError "Class not found or unauthorized"), s)
  | Some class_data =>
      if negb (String.eqb (c_teacher_id class_data) teacher_id)
      then (Raise (ValueError "Class not found or unauthorized"), s)
      else
        let enrollment_mode := c_enrollment_mode class_data in
        if negb (String.eqb enrollment_mode "enrollment_via_id")
        then (Raise (ValueError "QR attendance is only available for classes with student enrollment via Class ID"), s)
        else
          let valid_session_count := _count_valid_sessions_for_date class_data date in
          let existing_session := Backend.get_qr_session class_id date s in
          if match existing_session with
             | Some existing_session => String.eqb (q_status existing_session) "active"
             | None => false
             end
          then (Raise (ValueError "There is already an active QR session for this date. Please stop it first."), s)
          else
            let session_number := valid_session_count + 1 in
            let qr_session_data :=
              {| q_class_id := class_id;
                 q_teacher_id := teacher_id;
                 q_date := date;
                 q_session_number := session_number;
                 q_started_at := now;
                 q_rotation_interval := rotation_interval;
                 q_current_code := code;
                 q_code_generated_at := now;
                 q_scanned_students := [];
                 q_status := "active";
                 q_last_scan_at := None;
                 q_stopped_at := None;
                 q_updated_at := None |} in
            (Ok qr_session_data,
             Backend.create_qr_session class_id date qr_session_data s)
  end.

Definition get_active_qr_session (class_id date : string) (now : Time) (code : string)
    (s : S) : Result (option QRSession) * S :=
  match Backend.get_qr_session class_id date s with
  | None => (Ok None, s)
  | Some session_data =>
      if negb (String.eqb (q_status session_data) "active") then (Ok None, s)
      else
        let code_time := q_code_generated_at session_data in
        if total_seconds_ge (now - code_time) (q_rotation_interval session_data) then
          let session_data := rotate session_data code now in
          let '(session_data, s) :=
            Backend.update_qr_session class_id date session_data now s in
          (Ok (Some session_data), s)
        else (Ok (Some session_data), s)
  end.

Definition scan_qr_code (student_id class_id qr_code date : string) (now : Time)
    (s : S) : Result ScanResult * S :=
  match Backend.get_qr_session class_id date s with
  | None => (Raise (ValueError "No active QR session"), s)
  | Some session_data =>
      if negb (String.eqb (q_status session_data) "active")
      then (Raise (ValueError "No active QR session"), s)
      else
        let qr_code_value := qr_code_value json_loads qr_code in
        if negb (py_eq_str (q_current_code session_data) qr_code_value)
        then (Raise (ValueError "Invalid or expired QR code"), s)
        else
          let qr_session_number := q_session_number session_data in
          let all_enrollments := Backend.get_enrollments class_id s in
          match List.find (λ e, String.eqb (e_student_id e) student_id
                                  && String.eqb (e_status e) "active") all_enrollments with
          | None => (Raise (ValueError "Student not actively enrolled in this class"), s)
          | Some enrollment =>
              let student_record_id := e_student_record_id enrollment in
              match Backend.get_class class_id s with
              | None => (Raise (ValueError "Class not found"), s)
              | Some class_data =>
                  let students := c_students class_data in
                  match list_find (λ x, s_id x = student_record_id) students with
                  | None => (Raise (ValueError "Student record not found"), s)
                  | Some (k, student_record) =>
                      let students :=
                        <[k := scan_mark qr_session_number date now student_record]>
                          students in
                      let s :=
                        Backend.update_class class_id (set_students class_data students)
                          now s in
                      let scanned := q_scanned_students session_data in
                      let scanned :=
                        if bool_decide (student_record_id ∈ scanned) then scanned
                        else scanned ++ [student_record_id] in
                      let '(_, s) :=
                        Backend.update_qr_session class_id date
                          (record_scan session_data scanned now) now s in
                      (Ok {| scan_success := true;
                             scan_message := "Attendance marked as Present (Session #"
                                             +:+ pretty qr_session_number +:+ ")";
                             scan_count := qr_session_number;
                             scan_session_number := qr_session_number;
                             scan_date := date |}, s)
                  end
              end
          end
  end.

Definition stop_qr_session (class_id teacher_id date : string) (now : Time) (s : S)
  : Result StopResult * S :=
  match Backend.get_qr_session class_id date s with
  | None => (Raise (ValueError "No active session"), s)
  | Some session_data =>
      if negb (String.eqb (q_status session_data) "active")
      then (Raise (ValueError "No active session"), s)
      else if negb (String.eqb (q_teacher_id session_data) teacher_id)
      then (Raise (ValueError "Unauthorized"), s)
      else
        let qr_session_number := q_session_number session_data in
        let scanned_ids : gset string := list_to_set (q_scanned_students session_data) in
        let all_enrollments := Backend.get_enrollments class_id s in
        let active_student_ids : gset string :=
          list_to_set (e_student_record_id <$>
                       filter (λ e, e_status e = "active") all_enrollments) in
        match Backend.get_class class_id s with
        | None => (Raise AttributeError, s)
        | Some class_data =>
            let '(students, marked_absent) :=
              sweep qr_session_number date now active_student_ids scanned_ids
                    (c_students class_data) in
            let s :=
              Backend.update_class class_id (set_students class_data students) now s in
            let '(_, s) :=
              Backend.update_qr_session class_id date (close_session session_data now)
                now s in
            (Ok {| stop_success := true;
                   scanned_count := Z.of_nat (size scanned_ids);
                   absent_count := marked_absent;
                   stop_date := date;
                   stop_session_number := qr_session_number |}, s)
        end
  end.

(** The state a call leaves, whether it returns or raises. *)
Definition call (s : S) (c : Call) : S :=
  match c with
  | CStart class_id teacher_id date rotation_interval now code =>
      (start_qr_session class_id teacher_id date rotation_interval now code s).2
  | CRead class_id date now code => (get_active_qr_session class_id date now code s).2
  | CScan student_id class_id qr_code date now =>
      (scan_qr_code student_id class_id qr_code date now s).2
  | CStop class_id teacher_id date now => (stop_qr_session class_id teacher_id date now s).2
  end.

End Manager.

End Manager.

(** *** A backend that gives back what was written *)

(** A read or a scan of the class and the date, as a call. *)
Definition to_call (class_id date : string) (req : Request) : Call :=
  match req with
  | Read now code => CRead class_id date now code
  | Scan student_id qr_code now => CScan student_id class_id qr_code date now
  end.

Section Follows.

Context {S : Type} {backend : Backend.DatabaseBackend S}.

(** The backend answers the reads of a class and a date as the keyed store
    does. *)
Definition answers_as (class_id date : string) (s : S) (w : World) : Prop :=
  Backend.get_class class_id s = w_classes w !! class_id
  ∧ Backend.get_enrollments class_id s = default [] (w_enrollments w !! class_id)
  ∧ Backend.get_qr_session class_id date s = w_qr_sessions w !! (class_id, date).

(** It does so before every call of a list and after the last: all along,
    it gives back the class and the session that the calls wrote. *)
Fixpoint follows (json_loads : string → option json) (class_id date : string)
    (calls : list Call) (s : S) (w : World) : Prop :=
  answers_as class_id date s w
  ∧ match calls with
    | [] => True
    | c :: calls =>
        follows json_loads class_id date calls
          (Manager.call json_loads s c) (call json_loads w c)
    end.

(** What the backend holds for a class and a date, as a keyed store. *)
Definition snapshot (class_id date : string) (s : S) : World :=
  {| w_classes :=
       match Backend.get_class class_id s with
       | Some class_data => {[class_id := class_data]}
       | None => ∅
       end;
     w_enrollments := {[class_id := Backend.get_enrollments class_id s]};
     w_qr_sessions :=
       match Backend.get_qr_session class_id date s with
       | Some session_data => {[(class_id, date) := session_data]}
       | None => ∅
       end;
     w_writes := [] |}.

(** Along the calls, for the class and the date, the backend gives back what
    was last written. *)
Definition reads_back (json_loads : string → option json) (class_id date : string)
    (calls : list Call) (s : S) : Prop :=
  follows json_loads class_id date calls s (snapshot class_id date s).

End Follows.

(** The class a scan hands to [update_class] and the session it hands to
    [update_qr_session], given the session [s], the class [cls] and the record
    [st] found at index [k]; and those of a stop. *)
Definition marked_class (s : QRSession) (cls : Class) (k : nat) (st : Student)
    (date : string) (now : Time) : Class :=
  set_students cls (<[k := scan_mark (q_session_number s) date now st]> (c_students cls)).

Definition marked_session (s : QRSession) (student_record_id : string) (now : Time)
  : QRSession :=
  record_scan s (add_scanned student_record_id (q_scanned_students s)) now.

Definition swept_class (s : QRSession) (cls : Class) (all_enrollments : list Enrollment)
    (date : string) (now : Time) : Class :=
  set_students cls
    (sweep (q_session_number s) date now (active_ids all_enrollments)
           (list_to_set (q_scanned_students s)) (c_students cls)).1.

(** ** The two backends, over the records of the operations

    The methods of [FileBackend] and of [MongoDBBackend] that the operations
    call, on the records above in place of the dictionaries.  A name that
    goes into a path is a file name: it is not empty, it is neither [.] nor
    [..], and it holds no separator and no null character. *)

Definition plain_name (name : string) : bool :=
  negb (String.eqb name "") && negb (String.eqb name ".") && negb (String.eqb name "..")
  && forallb (λ c, negb (Ascii.eqb c "/"%char) && negb (Ascii.eqb c Ascii.zero))
             (String.list_ascii_of_string name).

Module FileStore.

(** The directories under [users/], the class files by directory and class
    id, the enrollment files by class id and the session files by name. *)
Record Files := {
  user_dirs : gset string;
  class_files : gmap (string * string) Class;
  enrollment_files : gmap string (list Enrollment);
  qr_session_files : gmap string QRSession
}.

Section Store.

(** [os.listdir]. *)
Variable listdir : gset string → list string.

(** The loop of [get_class] over the listed directories. *)
Fixpoint first_class (class_id : string) (fs : Files) (teachers : list string)
  : option Class :=
  match teachers with
  | [] => None
  | teacher_id :: rest =>
      match class_files fs !! (teacher_id, class_id) with
      | Some class_data => Some class_data
      | None => first_class class_id fs rest
      end
  end.

Definition get_class (class_id : string) (fs : Files) : option Class :=
  first_class class_id fs (listdir (user_dirs fs)).

(** The file is written under the ['teacher_id'] of the data, or of the
    class found when the data have none, and not at all when that has none
    either. *)
Definition update_class (class_id : string) (class_data : Class) (now : Time)
    (fs : Files) : Files :=
  let teacher_id := c_teacher_id class_data in
  let teacher_id :=
    if String.eqb teacher_id "" then
      match get_class class_id fs with
      | Some existing => c_teacher_id existing
      | None => teacher_id
      end
    else teacher_id in
  if String.eqb teacher_id "" then fs
  else
    {| user_dirs := {[teacher_id]} ∪ user_dirs fs;
       class_files :=
         <[(teacher_id, class_id) := stamp_class class_data now]> (class_files fs);
       enrollment_files := enrollment_files fs;
       qr_session_files := qr_session_files fs |}.

Definition get_enrollments (class_id : string) (fs : Files) : list Enrollment :=
  default [] (enrollment_files fs !! class_id).

Definition get_qr_session (class_id date : string) (fs : Files) : option QRSession :=
  qr_session_files fs !! FileBackend.qr_session_file class_id date.

Definition write_qr_session (class_id date : string) (session_data : QRSession)
    (fs : Files) : Files :=
  {| user_dirs := user_dirs fs;
     class_files := class_files fs;
     enrollment_files := enrollment_files fs;
     qr_session_files :=
       <[FileBackend.qr_session_file class_id date := session_data]> (qr_session_files fs) |}.

Definition create_qr_session (class_id date : string) (session_data : QRSession)
    (fs : Files) : Files :=
  write_qr_session class_id date session_data fs.

Definition update_qr_session (class_id date : string) (session_data : QRSession)
    (now : Time) (fs : Files) : QRSession * Files :=
  let session_data := stamp_session session_data now in
  (session_data, write_qr_session class_id date session_data fs).

#[export] Instance backend : Backend.DatabaseBackend Files := {|
  Backend.get_class := get_class;
  Backend.update_class := update_class;
  Backend.get_enrollments := get_enrollments;
  Backend.get_qr_session := get_qr_session;
  Backend.create_qr_session := create_qr_session;
  Backend.update_qr_session := update_qr_session
|}.

End Store.

(** The class is kept in the directory of its teacher, which its
    ['teacher_id'] names, and in no other directory. *)
Definition filed (class_id teacher_id : string) (fs : Files) : Prop :=
  plain_name teacher_id = true
  ∧ teacher_id ∈ user_dirs fs
  ∧ (∃ class_data, class_files fs !! (teacher_id, class_id) = Some class_data
                   ∧ c_teacher_id class_data = teacher_id)
  ∧ ∀ t, is_Some (class_files fs !! (t, class_id)) → t = teacher_id.

End FileStore.

Module MongoStore.

(** The documents of the collections [classes], [enrollments] and
    [qr_sessions], in the order of their insertion, which is the order in
    which [find_one] and [update_one] meet them.  A class and an enrollment
    go with their ['class_id']; a session carries its ['class_id'] and
    ['date']. *)
Record Collections := {
  classes : list (string * Class);
  enrollments : list (string * Enrollment);
  qr_sessions : list QRSession
}.

(** [update_one] without upsert: the first document that matches is
    changed; [None] when no document matches. *)
Fixpoint update_first {A : Type} (matches : A → bool) (change : A → A) (docs : list A)
  : option (list A) :=
  match docs with
  | [] => None
  | doc :: rest =>
      if matches doc then Some (change doc :: rest)
      else (doc ::.) <$> update_first matches change rest
  end.

Definition get_class (class_id : string) (db : Collections) : option Class :=
  snd <$> List.find (λ doc, String.eqb doc.1 class_id) (classes db).

Definition update_class (class_id : string) (class_data : Class) (now : Time)
    (db : Collections) : Collections :=
  {| classes :=
       default (classes db)
         (update_first (λ doc, String.eqb doc.1 class_id)
            (λ doc, (doc.1, stamp_class class_data now)) (classes db));
     enrollments := enrollments db;
     qr_sessions := qr_sessions db |}.

Definition get_enrollments (class_id : string) (db : Collections) : list Enrollment :=
  snd <$> filter (λ doc, doc.1 = class_id) (enrollments db).

Definition is_session (class_id date : string) (doc : QRSession) : bool :=
  String.eqb (q_class_id doc) class_id && String.eqb (q_date doc) date.

Definition get_qr_session (class_id date : string) (db : Collections) : option QRSession :=
  List.find (is_session class_id date) (qr_sessions db).

(** [session_data['class_id'] = class_id; session_data['date'] = date]. *)
Definition with_key (class_id date : string) (session_data : QRSession) : QRSession :=
  {| q_class_id := class_id;
     q_teacher_id := q_teacher_id session_data;
     q_date := date;
     q_session_number := q_session_number session_data;
     q_started_at := q_started_at session_data;
     q_rotation_interval := q_rotation_interval session_data;
     q_current_code := q_current_code session_data;
     q_code_generated_at := q_code_generated_at session_data;
     q_scanned_students := q_scanned_students session_data;
     q_status := q_status session_data;
     q_last_scan_at := q_last_scan_at session_data;
     q_stopped_at := q_stopped_at session_data;
     q_updated_at := q_updated_at session_data |}.

(** [insert_one]: one more document, whatever the collection holds. *)
Definition create_qr_session (class_id date : string) (session_data : QRSession)
    (db : Collections) : Collections :=
  {| classes := classes db;
     enrollments := enrollments db;
     qr_sessions := qr_sessions db ++ [with_key class_id date session_data] |}.

(** [update_one] with upsert: the first document of the class and the date
    takes the data; when there is none the data are inserted. *)
Definition update_qr_session (class_id date : string) (session_data : QRSession)
    (now : Time) (db : Collections) : QRSession * Collections :=
  let session_data := stamp_session session_data now in
  (session_data,
   {| classes := classes db;
      enrollments := enrollments db;
      qr_sessions :=
        match update_first (is_session class_id date) (λ _, session_data)
                (qr_sessions db) with
        | Some docs => docs
        | None => qr_sessions db ++ [session_data]
        end |}).

#[export] Instance backend : Backend.DatabaseBackend Collections := {|
  Backend.get_class := get_class;
  Backend.update_class := update_class;
  Backend.get_enrollments := get_enrollments;
  Backend.get_qr_session := get_qr_session;
  Backend.create_qr_session := create_qr_session;
  Backend.update_qr_session := update_qr_session
|}.

End MongoStore.

(** ** Example data *)

Definition mk_student (id : string) (attendance : list (string * Entry)) : Student :=
  {| s_id := id; s_attendance := list_to_map attendance |}.

Definition mk_class (teacher_id : string) (students : list Student) : Class :=
  {| c_teacher_id := teacher_id;
     c_enrollment_mode := "enrollment_via_id";
     c_students := students;
     c_updated_at := None |}.

Definition active_enrollment (student_id student_record_id : string) : Enrollment :=
  {| e_student_id := student_id;
     e_student_record_id := student_record_id;
     e_status := "active" |}.

(** A class whose only student carries [{"status": "P", "count": 3}]. *)
Definition class_counted : Class :=
  mk_class "t1" [mk_student "r1" [("2024-05-01", EStatus (Some "P") (Some 3))]].

(** A class whose only student carries the empty string. *)
Definition class_blank : Class :=
  mk_class "t1" [mk_student "r1" [("2024-05-01", EStr "")]].

(** Two students present in the first session. *)
Definition class_two_present : Class :=
  mk_class "t1" [mk_student "r1" [("2024-05-01", EStr "P")];
                 mk_student "r2" [("2024-05-01", EStr "P")]].

(** A class of three enrolled students without any mark, and no session. *)
Definition world_three : World :=
  {| w_classes :=
       {[ "c1" := mk_class "t1" [mk_student "r1" []; mk_student "r2" []; mk_student "r3" []] ]};
     w_enrollments :=
       {[ "c1" := [active_enrollment "s1" "r1"; active_enrollment "s2" "r2";
                   active_enrollment "s3" "r3"] ]};
     w_qr_sessions := ∅;
     w_writes := [] |}.

(** The same after [start_qr_session] at instant [0] with code ["AB12CD34"]
    and a rotation interval of five seconds. *)
Definition world_started : World :=
  (start_qr_session "c1" "t1" "2024-05-01" 5 0 "AB12CD34" world_three).2.

Definition session_started : QRSession :=
  started_session "c1" "t1" "2024-05-01" 5 0 "AB12CD34" 1.

(** [world_started] with ["{}"] as the current code of the session. *)
Definition session_braces : QRSession :=
  started_session "c1" "t1" "2024-05-01" 5 0 "{}" 1.

Definition world_braces : World :=
  {| w_classes := w_classes world_three;
     w_enrollments := w_enrollments world_three;
     w_qr_sessions := {[ ("c1", "2024-05-01") := session_braces ]};
     w_writes := [] |}.

(** The text [{"code": "AB12CD34"}]. *)
Definition payload_code : string :=
  "{" +:+ String Decoder.quote ("code" +:+ String Decoder.quote (": "
      +:+ String Decoder.quote ("AB12CD34" +:+ String Decoder.quote "}"))).

(** The first session: the students [s1] and [s2] scan, the teacher stops
    the session and starts the second one. *)
Definition world_two_scanned : World :=
  (scan_qr_code Decoder.json_decode "s2" "c1" "AB12CD34" "2024-05-01" 2000000
     (scan_qr_code Decoder.json_decode "s1" "c1" "AB12CD34" "2024-05-01" 1000000
        world_started).2).2.

Definition world_stopped : World :=
  (stop_qr_session "c1" "t1" "2024-05-01" 3000000 world_two_scanned).2.

Definition world_second : World :=
  (start_qr_session "c1" "t1" "2024-05-01" 5 4000000 "ZZ99ZZ99" world_stopped).2.






(** The attendance values of a class for a date, student by student. *)
Definition values_of (w : World) (class_id date : string) : option (list Entry) :=
  (λ cls, (λ st, py_get (s_attendance st) date) <$> c_students cls)
    <$> w_classes w !! class_id.


(** A class where [r1] carries a structured value whose second mark has no
    status yet, and [r2] the scalar ["P"]: one session of the date is
    valid. *)
Definition pending_mark : SessionMark :=
  {| m_id := "session_2"; m_name := "QR Session 2"; m_status := None |}.

Definition world_pending : World :=
  {| w_classes :=
       {[ "c1" := mk_class "t1"
                    [mk_student "r1"
                       [("2024-05-01", ESessions [new_mark 1 "P"; pending_mark] 0)];
                     mk_student "r2" [("2024-05-01", EStr "P")]] ]};
     w_enrollments :=
       {[ "c1" := [active_enrollment "s1" "r1"; active_enrollment "s2" "r2"] ]};
     w_qr_sessions := ∅;
     w_writes := [] |}.

Definition world_pending_started : World :=
  (start_qr_session "c1" "t1" "2024-05-01" 5 0 "AB12CD34" world_pending).2.








(** [world_started] with an enrollment of [s4] that is not active, an active
    enrollment of [s5] whose record is not in the class, and a session open
    for a class [c9] that does not exist. *)
Definition world_loose : World :=
  {| w_classes := w_classes world_started;
     w_enrollments :=
       {[ "c1" := [ {| e_student_id := "s4"; e_student_record_id := "r1";
                       e_status := "inactive" |};
                    active_enrollment "s5" "r5";
                    active_enrollment "s1" "r1" ] ]};
     w_qr_sessions :=
       <[("c9", "2024-05-01") := started_session "c9" "t1" "2024-05-01" 5 0 "AB12CD34" 1]>
         (w_qr_sessions world_started);
     w_writes := [] |}.

(** Files of the file backend: a class under one teacher, the same class id
    under two, two users, and three enrollments of a class, two of them of
    the same student. *)
Definition class_doc : list (string * json) := [("name", JStr "Maths")].

Definition files_class : FileBackend.Files :=
  FileBackend.create_class pretty "t1" "c1" class_doc 5 FileBackend.no_files.

Definition files_twice : FileBackend.Files :=
  FileBackend.create_class pretty "t2" "c1" [("name", JStr "Physics")] 6 files_class.

Definition files_users : FileBackend.Files :=
  FileBackend.create_user pretty "u1" [("email", JStr "a@x.org")] 1
    (FileBackend.create_user pretty "u2" [("email", JStr "b@x.org")] 2
       FileBackend.no_files).

Definition enrollment_doc (student_id status : string) : list (string * json) :=
  [("class_id", JStr "c1"); ("student_id", JStr student_id); ("status", JStr status)].

Definition files_enrolled : FileBackend.Files :=
  FileBackend.create_enrollment pretty FileBackend.format_plain
    (enrollment_doc "s1" "inactive") 3
    (FileBackend.create_enrollment pretty FileBackend.format_plain
       (enrollment_doc "s1" "active") 2
       (FileBackend.create_enrollment pretty FileBackend.format_plain
          (enrollment_doc "s2" "active") 1 FileBackend.no_files)).

(** * Properties *)

(** ** Counting the valid sessions *)

Lemma count_step_max (date : string) (m : Z) (student : Student) :
  0 ≤ m → count_step date m student = Z.max m (student_sessions date student).
Proof.
  intros Hm. unfold count_step, student_sessions.
  destruct (py_get (s_attendance student) date) as [|value| |[status|] count]; simpl; try lia.
  destruct (String.eqb value ""); simpl; lia.
Qed.

Lemma count_fold_bounds (date : string) (students : list Student) (m : Z) :
  0 ≤ m →
  let r := fold_left (count_step date) students m in
  m ≤ r
  ∧ (∀ student, student ∈ students → student_sessions date student ≤ r)
  ∧ (r = m ∨ ∃ student, student ∈ students ∧ r = student_sessions date student).
Proof.
  revert m. induction students as [|student students IH]; intros m Hm; simpl.
  - split; [lia|]. split; [|by left]. intros ? H. by apply elem_of_nil in H.
  - rewrite count_step_max by done.
    destruct (IH (Z.max m (student_sessions date student))) as (Hle & Hub & Hatt); [lia|].
    split; [lia|]. split.
    + intros s [->|Hs]%elem_of_cons; [lia|by apply Hub].
    + destruct Hatt as [Heq|(s & Hs & Heq)].
      * destruct (Z.max_spec m (student_sessions date student)) as [[_ Hmax]|[_ Hmax]].
        -- right. exists student. split; [apply elem_of_cons; by left|congruence].
        -- left. congruence.
      * right. exists s. split; [apply elem_of_cons; by right|done].
Qed.

(** The count is the maximum, and at least [0], of what the students
    contribute. *)
Lemma count_bounds (class_data : Class) (date : string) :
  let r := _count_valid_sessions_for_date class_data date in
  0 ≤ r
  ∧ (∀ student, student ∈ c_students class_data → student_sessions date student ≤ r)
  ∧ (r = 0 ∨ ∃ student, student ∈ c_students class_data
                        ∧ r = student_sessions date student).
Proof.
  unfold _count_valid_sessions_for_date.
  destruct (c_students class_data) as [|student students] eqn:Hst.
  - simpl. split; [lia|]. split; [|by left]. intros ? H. by apply elem_of_nil in H.
  - apply (count_fold_bounds date (student :: students) 0). lia.
Qed.

(** C5 (as amended): the count is the maximum, and at least [0], of what
    each student contributes, where a structured value contributes the number
    of its marks whose status is not null, a [{"status", "count"}] value with
    a status contributes its ["count"] ([1] when it has none), a non-empty
    string contributes [1], and a missing, null or empty value contributes
    [0]. *)
Theorem count_valid_sessions_is_max (class_data : Class) (date : string) :
  let r := _count_valid_sessions_for_date class_data date in
  0 ≤ r
  ∧ (∀ student, student ∈ c_students class_data → student_sessions date student ≤ r)
  ∧ (r = 0 ∨ ∃ student, student ∈ c_students class_data
                        ∧ r = student_sessions date student).
Proof. apply count_bounds. Qed.

(** C5 (as stated) fails: a [{"status": "P", "count": 3}] value counts for
    [3], not [1], and an empty string counts for [0], not [1]. *)
Lemma count_valid_sessions_not_as_claimed :
  _count_valid_sessions_for_date class_counted "2024-05-01" = 3
  ∧ claimed_count class_counted "2024-05-01" = 1
  ∧ _count_valid_sessions_for_date class_blank "2024-05-01" = 0
  ∧ claimed_count class_blank "2024-05-01" = 1.
Proof. by vm_compute. Qed.

(** The count of two students present once is [1], where the sum is [2]. *)
Example count_is_not_the_sum :
  _count_valid_sessions_for_date class_two_present "2024-05-01" = 1
  ∧ summed_count class_two_present "2024-05-01" = 2.
Proof. by vm_compute. Qed.

(** ** The operations, call by call *)

Ltac run_M :=
  unfold raise_if, update_qr_session, create_qr_session in *;
  unfold mbind, M_bind, mret, M_ret, raise, get_class, get_qr_session,
    get_enrollments, update_class, put_qr_session in *; simpl in *.

Ltac split_cases := repeat (case_match; simpl in *; simplify_eq).

Lemma negb_eqb_false (a b : string) : negb (String.eqb a b) = false ↔ a = b.
Proof. rewrite negb_false_iff. apply String.eqb_eq. Qed.

Lemma negb_eqb_true (a b : string) : negb (String.eqb a b) = true ↔ a ≠ b.
Proof. rewrite negb_true_iff. apply String.eqb_neq. Qed.

Lemma start_failure (class_id teacher_id date : string) (ri : Z) (now : Time) (code : string)
    (w w' : World) (e : Exn) :
  start_qr_session class_id teacher_id date ri now code w = (Raise e, w') → w' = w.
Proof. unfold start_qr_session. run_M. intros H. split_cases; done. Qed.

Lemma scan_failure jl (student_id class_id qr_code date : string) (now : Time)
    (w w' : World) (e : Exn) :
  scan_qr_code jl student_id class_id qr_code date now w = (Raise e, w') → w' = w.
Proof. unfold scan_qr_code. run_M. intros H. split_cases; done. Qed.

Lemma stop_failure (class_id teacher_id date : string) (now : Time)
    (w w' : World) (e : Exn) :
  stop_qr_session class_id teacher_id date now w = (Raise e, w') → w' = w.
Proof. unfold stop_qr_session. run_M. intros H. split_cases; done. Qed.

(** A successful start: what was read, and what is stored. *)
Lemma start_Ok (class_id teacher_id date : string) (ri : Z) (now : Time) (code : string)
    (w w' : World) (s : QRSession) :
  start_qr_session class_id teacher_id date ri now code w = (Ok s, w') ↔
  ∃ cls,
    w_classes w !! class_id = Some cls
    ∧ c_teacher_id cls = teacher_id
    ∧ c_enrollment_mode cls = "enrollment_via_id"
    ∧ (∀ old, w_qr_sessions w !! (class_id, date) = Some old → q_status old ≠ "active")
    ∧ s = started_session class_id teacher_id date ri now code
            (_count_valid_sessions_for_date cls date + 1)
    ∧ w' = with_session class_id date s w.
Proof.
  unfold start_qr_session. run_M. split.
  - intros H. split_cases.
    + eexists. repeat split; try done.
      * by apply negb_eqb_false.
      * by apply negb_eqb_false.
      * intros old ?. simplify_eq. by apply String.eqb_neq.
    + eexists. repeat split; try done.
      * by apply negb_eqb_false.
      * by apply negb_eqb_false.
      * intros old ?. simplify_eq.
  - intros (cls & Hcls & Ht & Hm & Hold & -> & ->). rewrite Hcls. simpl.
    apply negb_eqb_false in Ht as ->. apply negb_eqb_false in Hm as ->.
    destruct (w_qr_sessions w !! (class_id, date)) as [old|] eqn:Ho; simpl; [|done].
    specialize (Hold old eq_refl). apply String.eqb_neq in Hold as ->. done.
Qed.

(** A successful scan: what was read, and what is stored. *)
Lemma scan_Ok_inv jl (student_id class_id qr_code date : string) (now : Time)
    (w w' : World) (r : ScanResult) :
  scan_qr_code jl student_id class_id qr_code date now w = (Ok r, w') →
  ∃ s enr cls k st,
    w_qr_sessions w !! (class_id, date) = Some s
    ∧ q_status s = "active"
    ∧ py_eq_str (q_current_code s) (qr_code_value jl qr_code) = true
    ∧ find_enrollment student_id (default [] (w_enrollments w !! class_id)) = Some enr
    ∧ w_classes w !! class_id = Some cls
    ∧ list_find (λ x, s_id x = e_student_record_id enr) (c_students cls) = Some (k, st)
    ∧ scan_session_number r = q_session_number s
    ∧ w' = with_session class_id date (scanned_session s (e_student_record_id enr) now)
             (with_class class_id (scanned_class s cls k st date now) w).
Proof.
  unfold scan_qr_code, find_enrollment. run_M. intros H. split_cases.
  all: eexists _, _, _, _, _; repeat split; try done;
    try (by apply negb_eqb_false); try (by apply negb_false_iff).
  all: unfold with_session, with_class, scanned_session, scanned_class, add_scanned; simpl.
  all: by match goal with H : bool_decide _ = _ |- _ => rewrite H end.
Qed.


(** A successful stop: what was read, and what is stored. *)
Lemma stop_Ok_inv (class_id teacher_id date : string) (now : Time)
    (w w' : World) (r : StopResult) :
  stop_qr_session class_id teacher_id date now w = (Ok r, w') →
  ∃ s cls,
    w_qr_sessions w !! (class_id, date) = Some s
    ∧ q_status s = "active"
    ∧ q_teacher_id s = teacher_id
    ∧ w_classes w !! class_id = Some cls
    ∧ r = {| stop_success := true;
             scanned_count :=
               Z.of_nat (size (list_to_set (q_scanned_students s) : gset string));
             absent_count :=
               (sweep (q_session_number s) date now
                  (active_ids (default [] (w_enrollments w !! class_id)))
                  (list_to_set (q_scanned_students s)) (c_students cls)).2;
             stop_date := date;
             stop_session_number := q_session_number s |}
    ∧ w' = with_session class_id date (stopped_session s now)
             (with_class class_id
                (stopped_class s cls (default [] (w_enrollments w !! class_id)) date now) w).
Proof.
  unfold stop_qr_session, stopped_class, active_ids. run_M. intros H. split_cases.
  eexists _, _. repeat split; try done.
  - by apply negb_eqb_false.
  - by apply negb_eqb_false.
  - by rewrite H4.
  - by rewrite H4.
Qed.


(** ** Failures write nothing *)

(** C7: a call of [start_qr_session], [scan_qr_code] or [stop_qr_session]
    that raises leaves the store as it was, log of writes included; a start
    by a teacher who does not own the class raises; and a call that succeeds
    writes once it has passed every check: the session for a start, the class
    and then the session for a scan and for a stop. *)
Theorem failure_leaves_store_unchanged (json_loads : string → option json) (w : World) :
  (∀ class_id teacher_id date ri now code e w',
     start_qr_session class_id teacher_id date ri now code w = (Raise e, w') → w' = w)
  ∧ (∀ student_id class_id qr_code date now e w',
     scan_qr_code json_loads student_id class_id qr_code date now w = (Raise e, w') →
     w' = w)
  ∧ (∀ class_id teacher_id date now e w',
     stop_qr_session class_id teacher_id date now w = (Raise e, w') → w' = w)
  ∧ (∀ class_id teacher_id date ri now code class_data,
     w_classes w !! class_id = Some class_data →
     c_teacher_id class_data ≠ teacher_id →
     start_qr_session class_id teacher_id date ri now code w
     = (Raise (ValueError "Class not found or unauthorized"), w))
  ∧ (∀ class_id teacher_id date ri now code s w',
     start_qr_session class_id teacher_id date ri now code w = (Ok s, w') →
     w_writes w' = w_writes w ++ [WSession class_id date])
  ∧ (∀ student_id class_id qr_code date now r w',
     scan_qr_code json_loads student_id class_id qr_code date now w = (Ok r, w') →
     w_writes w' = w_writes w ++ [WClass class_id; WSession class_id date])
  ∧ (∀ class_id teacher_id date now r w',
     stop_qr_session class_id teacher_id date now w = (Ok r, w') →
     w_writes w' = w_writes w ++ [WClass class_id; WSession class_id date]).
Proof.
  repeat split.
  - intros. by eapply start_failure.
  - intros. by eapply scan_failure.
  - intros. by eapply stop_failure.
  - intros class_id teacher_id date ri now code class_data Hcls Hne.
    unfold start_qr_session. run_M. rewrite Hcls. simpl.
    apply negb_eqb_true in Hne as ->. done.
  - intros class_id teacher_id date ri now code s w' H.
    apply start_Ok in H as (cls & _ & _ & _ & _ & _ & ->). done.
  - intros student_id class_id qr_code date now r w' H.
    apply scan_Ok_inv in H as (s & enr & cls & k & st & _ & _ & _ & _ & _ & _ & _ & ->).
    simpl. by rewrite <- app_assoc.
  - intros class_id teacher_id date now r w' H.
    apply stop_Ok_inv in H as (s & cls & _ & _ & _ & _ & _ & ->).
    simpl. by rewrite <- app_assoc.
Qed.

Lemma failure_leaves_store_unchanged_witness :
  start_qr_session "c1" "t2" "2024-05-01" 5 0 "AB12CD34" world_three
  = (Raise (ValueError "Class not found or unauthorized"), world_three)
  ∧ w_qr_sessions world_three !! ("c1", "2024-05-01") = None.
Proof.
  split; [|done].
  destruct (failure_leaves_store_unchanged (λ _, None) world_three)
    as (_ & _ & _ & Hstart & _).
  eapply Hstart; [by vm_compute|by vm_compute].
Defined.

(** ** Reading the active session *)

Lemma get_active_unfold (class_id date : string) (now : Time) (code : string)
    (w : World) (s : QRSession) :
  w_qr_sessions w !! (class_id, date) = Some s →
  q_status s = "active" →
  get_active_qr_session class_id date now code w
  = if total_seconds_ge (now - q_code_generated_at s) (q_rotation_interval s)
    then (Ok (Some (stamp_session (rotate s code now) now)),
          with_session class_id date (stamp_session (rotate s code now) now) w)
    else (Ok (Some s), w).
Proof.
  intros Hs Hact. unfold get_active_qr_session. run_M. rewrite Hs. simpl.
  apply negb_eqb_false in Hact as ->. by destruct (total_seconds_ge _ _).
Qed.




(** C10 (as amended): a read that rotates the code changes [current_code],
    [code_generated_at] and the [updated_at] that [update_qr_session] sets;
    every other field of the session is returned and stored as it was. *)
Theorem rotation_frame (class_id date : string) (now : Time) (code : string)
    (w : World) (s : QRSession) :
  w_qr_sessions w !! (class_id, date) = Some s →
  q_status s = "active" →
  q_rotation_interval s * 1000000 ≤ now - q_code_generated_at s →
  ∃ s' w',
    get_active_qr_session class_id date now code w = (Ok (Some s'), w')
    ∧ w_qr_sessions w' !! (class_id, date) = Some s'
    ∧ q_class_id s' = q_class_id s
    ∧ q_teacher_id s' = q_teacher_id s
    ∧ q_date s' = q_date s
    ∧ q_session_number s' = q_session_number s
    ∧ q_started_at s' = q_started_at s
    ∧ q_rotation_interval s' = q_rotation_interval s
    ∧ q_scanned_students s' = q_scanned_students s
    ∧ q_status s' = q_status s
    ∧ q_last_scan_at s' = q_last_scan_at s
    ∧ q_stopped_at s' = q_stopped_at s
    ∧ q_current_code s' = code
    ∧ q_code_generated_at s' = now
    ∧ q_updated_at s' = Some now.
Proof.
  intros Hs Hact Hdelay. rewrite (get_active_unfold _ _ _ _ _ _ Hs Hact).
  unfold total_seconds_ge. rewrite (proj2 (Z.leb_le _ _)) by lia.
  eexists _, _. split; [reflexivity|]. simpl. rewrite lookup_insert_eq. done.
Qed.

Lemma rotation_frame_witness :
  ∃ s' w',
    get_active_qr_session "c1" "2024-05-01" 6000000 "ZZ99ZZ99" world_started
    = (Ok (Some s'), w')
    ∧ q_session_number s' = 1
    ∧ q_scanned_students s' = []
    ∧ q_updated_at s' = Some 6000000.
Proof.
  assert (w_qr_sessions world_started !! ("c1", "2024-05-01") = Some session_started)
    as Hs by (by vm_compute).
  destruct (rotation_frame "c1" "2024-05-01" 6000000 "ZZ99ZZ99" _ _ Hs eq_refl)
    as (s' & w' & H & _ & _ & _ & _ & Hn & _ & _ & Hsc & _ & _ & _ & _ & _ & Hu);
    [simpl; lia|].
  exists s', w'. by rewrite Hn, Hsc, Hu.
Defined.

(** C10 (as stated) fails: the rotation also changes [updated_at]. *)
Lemma rotation_changes_updated_at :
  w_qr_sessions world_started !! ("c1", "2024-05-01") = Some session_started
  ∧ q_updated_at session_started = None
  ∧ ∃ s' w',
      get_active_qr_session "c1" "2024-05-01" 6000000 "ZZ99ZZ99" world_started
      = (Ok (Some s'), w')
      ∧ w_qr_sessions w' !! ("c1", "2024-05-01") = Some s'
      ∧ q_updated_at s' = Some 6000000.
Proof.
  split; [by vm_compute|]. split; [done|].
  eexists _, _. split; [by vm_compute|]. split; by vm_compute.
Qed.

(** ** The code a scan submits *)

Lemma py_eq_str_true (c : string) (v : json) : py_eq_str c v = true ↔ v = JStr c.
Proof.
  destruct v; simpl; try (split; [discriminate|intros [=]]).
  rewrite String.eqb_eq. split; [by intros ->|by intros [= ->]].
Qed.

Lemma py_eq_str_false (c : string) (v : json) : py_eq_str c v = false ↔ v ≠ JStr c.
Proof. rewrite <- py_eq_str_true. by destruct (py_eq_str c v). Qed.

(** C8 (as amended): the value compared with [current_code] is the field
    ["code"] of an input that decodes to an object having it, null for an
    input that decodes to an object without it, and the input itself when the
    decoding fails or yields anything but an object; on an active session the
    scan raises the invalid-code error exactly when that value is not the
    string [current_code]. *)
Theorem scan_code_check (json_loads : string → option json)
    (student_id class_id qr_code date : string) (now : Time) (w : World) (s : QRSession) :
  w_qr_sessions w !! (class_id, date) = Some s →
  q_status s = "active" →
  (∀ qr_data c, json_loads qr_code = Some (JObj qr_data) →
                dict_get "code" qr_data = Some c →
                qr_code_value json_loads qr_code = c)
  ∧ (∀ qr_data, json_loads qr_code = Some (JObj qr_data) →
                dict_get "code" qr_data = None →
                qr_code_value json_loads qr_code = JNull)
  ∧ ((∀ qr_data, json_loads qr_code ≠ Some (JObj qr_data)) →
     qr_code_value json_loads qr_code = JStr qr_code)
  ∧ ((scan_qr_code json_loads student_id class_id qr_code date now w).1
       = Raise (ValueError "Invalid or expired QR code")
     ↔ qr_code_value json_loads qr_code ≠ JStr (q_current_code s)).
Proof.
  intros Hs Hact. repeat split.
  - intros qr_data c Hj Hc. unfold qr_code_value. by rewrite Hj, Hc.
  - intros qr_data Hj Hc. unfold qr_code_value. by rewrite Hj, Hc.
  - intros Hno. unfold qr_code_value.
    destruct (json_loads qr_code) as [[| | | | |qr_data]|] eqn:Hj; try done.
    by destruct (Hno qr_data).
  - rewrite <- py_eq_str_false. unfold scan_qr_code. run_M. rewrite Hs. simpl.
    apply negb_eqb_false in Hact as ->.
    destruct (py_eq_str _ _); simpl; [|done]. intros H. split_cases.
  - rewrite <- py_eq_str_false. intros Hne. unfold scan_qr_code. run_M. rewrite Hs. simpl.
    apply negb_eqb_false in Hact as ->. by rewrite Hne.
Qed.

Lemma scan_code_check_witness :
  qr_code_value Decoder.json_decode payload_code = JStr "AB12CD34"
  ∧ qr_code_value Decoder.json_decode "{}" = JNull
  ∧ qr_code_value Decoder.json_decode "12345678" = JStr "12345678"
  ∧ (scan_qr_code Decoder.json_decode "s1" "c1" "{}" "2024-05-01" 1 world_started).1
    = Raise (ValueError "Invalid or expired QR code").
Proof.
  assert (w_qr_sessions world_started !! ("c1", "2024-05-01") = Some session_started)
    as Hs by (by vm_compute).
  destruct (scan_code_check Decoder.json_decode "s1" "c1" payload_code "2024-05-01" 1
              _ _ Hs eq_refl) as (H1 & _).
  destruct (scan_code_check Decoder.json_decode "s1" "c1" "{}" "2024-05-01" 1
              _ _ Hs eq_refl) as (_ & H2 & _ & H4).
  destruct (scan_code_check Decoder.json_decode "s1" "c1" "12345678" "2024-05-01" 1
              _ _ Hs eq_refl) as (_ & _ & H3 & _).
  split; [|split; [|split]].
  - eapply H1; by vm_compute.
  - eapply H2; by vm_compute.
  - apply H3. intros qr_data. by vm_compute.
  - apply H4. rewrite (H2 []); by vm_compute.
Defined.

(** C8 (as stated) fails: for the input [{}], an object without ["code"],
    the value compared is null and not the input, and a session whose
    current code is that very text rejects it. *)
Lemma object_without_code_is_null :
  Decoder.json_decode "{}" = Some (JObj [])
  ∧ qr_code_value Decoder.json_decode "{}" = JNull
  ∧ claimed_code_value Decoder.json_decode "{}" = JStr "{}"
  ∧ w_qr_sessions world_braces !! ("c1", "2024-05-01") = Some session_braces
  ∧ q_status session_braces = "active"
  ∧ claimed_code_value Decoder.json_decode "{}" = JStr (q_current_code session_braces)
  ∧ (scan_qr_code Decoder.json_decode "s1" "c1" "{}" "2024-05-01" 1 world_braces).1
    = Raise (ValueError "Invalid or expired QR code").
Proof. repeat split; by vm_compute. Qed.

(** ** The lists of session marks *)

Lemma session_id_inj (i j : Z) : session_id i = session_id j → i = j.
Proof. unfold session_id. simpl. intros [= H]. by apply (inj pretty). Qed.







Lemma find_mark_Some_id (id : string) (l : list SessionMark) (m : SessionMark) :
  find_mark id l = Some m → m_id m = id.
Proof.
  unfold find_mark. intros H. apply find_some in H as [_ H]. by apply String.eqb_eq.
Qed.


Lemma find_mark_None (id : string) (l : list SessionMark) :
  id ∉ (m_id <$> l) → find_mark id l = None.
Proof.
  unfold find_mark. induction l as [|m l IH]; simpl; [done|].
  rewrite not_elem_of_cons. intros [Hne H].
  destruct (String.eqb_spec (m_id m) id); [congruence|by apply IH].
Qed.













(** *** Lists in the order of the data model *)








(** *** The lists built from a scalar or missing value *)





(** ** The attendance value after a scan and after a sweep *)







#[local] Instance session_id_Inj : Inj (=) (=) session_id.
Proof. intros i j. apply session_id_inj. Qed.








(** ** Scanning twice *)

Lemma add_scanned_elem (r : string) (l : list string) : r ∈ add_scanned r l.
Proof. unfold add_scanned. case_bool_decide; [done|]. apply elem_of_app. right. set_solver. Qed.









(** In the second session the scan of [s3], absent in the first, yields the
    structured value [A, P], and the scan of [s1], present, yields [P, P]. *)
Example scan_in_second_session :
  ∀ w', w' = (scan_qr_code Decoder.json_decode "s1" "c1" "ZZ99ZZ99" "2024-05-01" 6000000
               (scan_qr_code Decoder.json_decode "s3" "c1" "ZZ99ZZ99" "2024-05-01" 5000000
                  world_second).2).2 →
  (λ cls, (λ st, py_get (s_attendance st) "2024-05-01") <$> c_students cls)
    <$> w_classes w' !! "c1"
  = Some [ESessions [new_mark 1 "P"; new_mark 2 "P"] 6000000;
          EStr "P";
          ESessions [new_mark 1 "A"; new_mark 2 "P"] 5000000].
Proof. intros w' ->. by vm_compute. Qed.

(** ** The representation of the value written *)
















(** ** The sweep of the absent students *)

Lemma sweep_students (n : Z) (date : string) (now : Time) (A S : gset string)
    (students : list Student) :
  (sweep n date now A S students).1
  = (λ st, if swept A S st then stop_mark n date now st else st) <$> students.
Proof.
  induction students as [|st students IH]; [done|].
  rewrite fmap_cons, <- IH. cbn [sweep].
  destruct (sweep n date now A S students) as [rest marked].
  by destruct (swept A S st).
Qed.

Lemma sweep_count (n : Z) (date : string) (now : Time) (A S : gset string)
    (students : list Student) :
  (sweep n date now A S students).2
  = Z.of_nat (length (filter (λ st, swept A S st = true) students)).
Proof.
  induction students as [|st students IH]; [done|]. cbn [sweep].
  destruct (sweep n date now A S students) as [rest marked]. cbn [snd] in IH.
  destruct (swept A S st) eqn:Hsw.
  - rewrite filter_cons_True by done. cbn [snd length]. lia.
  - rewrite filter_cons_False by (by rewrite Hsw). done.
Qed.



(** ** The representation after a scan and after a stop *)



(** ** Structured values *)






(** ** Stopping a session *)

(** The scenario of the absence closure: three active enrollments, two
    students scan in session [1], the stop counts two scanned and one absent
    and writes ["A"] for the third, after one write of the class and one of
    the session. *)
Example absence_closure_scenario :
  (stop_qr_session "c1" "t1" "2024-05-01" 3000000 world_two_scanned).1
  = Ok {| stop_success := true; scanned_count := 2; absent_count := 1;
          stop_date := "2024-05-01"; stop_session_number := 1 |}
  ∧ values_of world_stopped "c1" "2024-05-01" = Some [EStr "P"; EStr "P"; EStr "A"]
  ∧ w_writes world_stopped
    = w_writes world_two_scanned ++ [WClass "c1"; WSession "c1" "2024-05-01"].
Proof. repeat split; by vm_compute. Qed.

(** What a stop returns and writes: the students swept are the records whose
    id is the record id of an active enrollment and is not in
    [scanned_students]; [absent_count] is their number. *)
Lemma stop_sweeps (class_id teacher_id date : string) (now : Time)
    (w w' : World) (r : StopResult) :
  stop_qr_session class_id teacher_id date now w = (Ok r, w') →
  ∃ s cls cls',
    w_qr_sessions w !! (class_id, date) = Some s
    ∧ w_classes w !! class_id = Some cls
    ∧ w_classes w' !! class_id = Some cls'
    ∧ w_writes w' = w_writes w ++ [WClass class_id; WSession class_id date]
    ∧ c_students cls'
      = (λ st, if swept (active_ids (default [] (w_enrollments w !! class_id)))
                        (list_to_set (q_scanned_students s)) st
               then stop_mark (q_session_number s) date now st else st)
          <$> c_students cls
    ∧ absent_count r
      = Z.of_nat (length (filter
           (λ st, swept (active_ids (default [] (w_enrollments w !! class_id)))
                        (list_to_set (q_scanned_students s)) st = true)
           (c_students cls))).
Proof.
  intros H. apply stop_Ok_inv in H as (s & cls & Hs & _ & _ & Hcls & -> & ->).
  exists s, cls, (stopped_class s cls (default [] (w_enrollments w !! class_id)) date now).
  split; [done|]. split; [done|]. split; [simpl; by rewrite lookup_insert_eq|].
  split; [simpl; by rewrite <- app_assoc|].
  split; [simpl; apply sweep_students|]. simpl. apply sweep_count.
Qed.

(** C3 at its failing input: one session of the date is valid, so the session
    started is numbered [2]; [r1] is enrolled, does not scan, and its value
    already has a mark ["session_2"], without status. The stop counts [r1]
    absent and leaves that mark without status. *)
Theorem stop_leaves_existing_mark :
  values_of world_pending "c1" "2024-05-01"
  = Some [ESessions [new_mark 1 "P"; pending_mark] 0; EStr "P"]
  ∧ (q_session_number <$> w_qr_sessions world_pending_started !! ("c1", "2024-05-01"))
    = Some 2
  ∧ (stop_qr_session "c1" "t1" "2024-05-01" 1000000 world_pending_started).1
    = Ok {| stop_success := true; scanned_count := 0; absent_count := 2;
            stop_date := "2024-05-01"; stop_session_number := 2 |}
  ∧ values_of (stop_qr_session "c1" "t1" "2024-05-01" 1000000 world_pending_started).2
      "c1" "2024-05-01"
    = Some [ESessions [new_mark 1 "P"; pending_mark] 1000000;
            ESessions [new_mark 1 "P"; new_mark 2 "A"] 1000000]
  ∧ mark_of (ESessions [new_mark 1 "P"; pending_mark] 1000000) 2 = None.
Proof. repeat split; by vm_compute. Qed.

(** ** The number of the next session *)












(** * Further properties of the operations *)

(** ** What a call leaves *)




Lemma add_scanned_not_nil (r : string) (l : list string) : add_scanned r l ≠ [].
Proof.
  intros Heq. pose proof (add_scanned_elem r l) as Hin. rewrite Heq in Hin.
  by apply elem_of_nil in Hin.
Qed.

(** ** Sessions stay well formed *)










(** ** Classes and enrollments under the calls *)






(** ** The life of a session *)






(** X4: after a successful stop the session is closed for good: a read
    returns nothing and writes nothing, a scan raises the no-active-session
    error whatever the code, a second stop raises it too, and the stopped
    session does not prevent the owner of the class from starting the next
    one. *)
Theorem stopped_session_is_closed (json_loads : string → option json)
    (class_id teacher_id date : string) (now : Time) (w w' : World) (r : StopResult) :
  stop_qr_session class_id teacher_id date now w = (Ok r, w') →
  (∀ now' code', get_active_qr_session class_id date now' code' w' = (Ok None, w'))
  ∧ (∀ student_id qr_code now',
       scan_qr_code json_loads student_id class_id qr_code date now' w'
       = (Raise (ValueError "No active QR session"), w'))
  ∧ (∀ teacher_id' now',
       stop_qr_session class_id teacher_id' date now' w'
       = (Raise (ValueError "No active session"), w'))
  ∧ (∀ cls ri' now' code',
       w_classes w !! class_id = Some cls →
       c_enrollment_mode cls = "enrollment_via_id" →
       ∃ s' w'',
         start_qr_session class_id (c_teacher_id cls) date ri' now' code' w' = (Ok s', w'')
         ∧ q_status s' = "active"
         ∧ q_scanned_students s' = []).
Proof.
  intros H. apply stop_Ok_inv in H as (s & cls & Hs & _ & _ & Hcls & _ & ->).
  split; [|split; [|split]].
  - intros now' code'. unfold get_active_qr_session. run_M.
    by rewrite lookup_insert_eq.
  - intros student_id qr_code now'. unfold scan_qr_code. run_M.
    by rewrite lookup_insert_eq.
  - intros teacher_id' now'. unfold stop_qr_session. run_M.
    by rewrite lookup_insert_eq.
  - intros cls0 ri' now' code' Hcls0 Hm.
    rewrite Hcls in Hcls0. injection Hcls0 as <-.
    eexists _, _. split.
    { apply start_Ok. eexists. simpl. rewrite !lookup_insert_eq.
      split; [reflexivity|]. split; [done|]. split; [done|]. split; [|done].
      by intros old [= <-]. }
    split; reflexivity.
Qed.

Lemma stopped_session_is_closed_witness :
  get_active_qr_session "c1" "2024-05-01" 4000000 "ZZ99ZZ99" world_stopped
  = (Ok None, world_stopped)
  ∧ scan_qr_code Decoder.json_decode "s3" "c1" "AB12CD34" "2024-05-01" 4000000 world_stopped
    = (Raise (ValueError "No active QR session"), world_stopped).
Proof.
  assert (∃ r, stop_qr_session "c1" "t1" "2024-05-01" 3000000 world_two_scanned
               = (Ok r, world_stopped)) as [r H].
  { eexists. by vm_compute. }
  destruct (stopped_session_is_closed Decoder.json_decode _ _ _ _ _ _ _ H)
    as (Hread & Hscan & _).
  split; [apply Hread|apply Hscan].
Defined.

(** ** What a scan and a stop leave untouched *)








(** ** Session numbers on settled values *)















(** ** After a rotation *)



(** ** The loops over an existing list insert marks and nothing else *)








(** ** Scans that are turned away, sessions that cannot be closed *)

Lemma find_enrollment_None (student_id : string) (all_enrollments : list Enrollment) :
  (∀ e, e ∈ all_enrollments → e_student_id e = student_id → e_status e ≠ "active") →
  find_enrollment student_id all_enrollments = None.
Proof.
  intros Hall. unfold find_enrollment.
  destruct (find _ all_enrollments) as [e|] eqn:Hfind; [|done].
  apply find_some in Hfind as [Hin Hb].
  apply andb_true_iff in Hb as [H1%String.eqb_eq H2%String.eqb_eq].
  destruct (Hall e); [by apply list_elem_of_In|done|done].
Qed.

(** X10: with an active session and the right code, a scan by a student none
    of whose enrollments in the class is active raises the not-enrolled
    error; a scan by a student whose first active enrollment names a record
    id that no record of the class carries raises the record-not-found error,
    and the class-not-found error when the class is missing. In each case
    nothing is written: no mark, and no id added to [scanned_students]. *)
Theorem scan_turns_away (json_loads : string → option json)
    (student_id class_id qr_code date : string) (now : Time) (w : World) (s : QRSession) :
  w_qr_sessions w !! (class_id, date) = Some s →
  q_status s = "active" →
  qr_code_value json_loads qr_code = JStr (q_current_code s) →
  ((∀ e, e ∈ default [] (w_enrollments w !! class_id) →
         e_student_id e = student_id → e_status e ≠ "active") →
   scan_qr_code json_loads student_id class_id qr_code date now w
   = (Raise (ValueError "Student not actively enrolled in this class"), w))
  ∧ (∀ enr,
       find_enrollment student_id (default [] (w_enrollments w !! class_id)) = Some enr →
       (w_classes w !! class_id = None →
        scan_qr_code json_loads student_id class_id qr_code date now w
        = (Raise (ValueError "Class not found"), w))
       ∧ (∀ cls,
            w_classes w !! class_id = Some cls →
            (∀ st, st ∈ c_students cls → s_id st ≠ e_student_record_id enr) →
            scan_qr_code json_loads student_id class_id qr_code date now w
            = (Raise (ValueError "Student record not found"), w))).
Proof.
  intros Hs Hact Hcode. apply py_eq_str_true in Hcode.
  split; [|intros enr Henr; split].
  - intros Hall. apply find_enrollment_None in Hall.
    unfold scan_qr_code, find_enrollment in *. run_M. rewrite Hs. simpl.
    apply negb_eqb_false in Hact as ->. rewrite Hcode. simpl. by rewrite Hall.
  - intros Hcls. unfold scan_qr_code, find_enrollment in *. run_M. rewrite Hs. simpl.
    apply negb_eqb_false in Hact as ->. rewrite Hcode. simpl. rewrite Henr. simpl.
    by rewrite Hcls.
  - intros cls Hcls Hnone.
    assert (list_find (λ x, s_id x = e_student_record_id enr) (c_students cls) = None)
      as Hfind.
    { apply list_find_None, Forall_forall. intros st Hst. by apply Hnone. }
    unfold scan_qr_code, find_enrollment in *. run_M. rewrite Hs. simpl.
    apply negb_eqb_false in Hact as ->. rewrite Hcode. simpl. rewrite Henr. simpl.
    rewrite Hcls. simpl. by rewrite Hfind.
Qed.

Lemma scan_turns_away_witness :
  scan_qr_code Decoder.json_decode "s4" "c1" "AB12CD34" "2024-05-01" 1000000 world_loose
  = (Raise (ValueError "Student not actively enrolled in this class"), world_loose)
  ∧ scan_qr_code Decoder.json_decode "s5" "c1" "AB12CD34" "2024-05-01" 1000000 world_loose
    = (Raise (ValueError "Student record not found"), world_loose).
Proof.
  assert (w_qr_sessions world_loose !! ("c1", "2024-05-01") = Some session_started)
    as Hs by (by vm_compute).
  split.
  - destruct (scan_turns_away Decoder.json_decode "s4" "c1" "AB12CD34" "2024-05-01"
                1000000 _ _ Hs eq_refl) as [Hno _]; [by vm_compute|].
    apply Hno. intros e He Hid.
    change (e ∈ [ {| e_student_id := "s4"; e_student_record_id := "r1";
                     e_status := "inactive" |};
                  active_enrollment "s5" "r5"; active_enrollment "s1" "r1" ]) in He.
    apply elem_of_cons in He as [->|He]; [discriminate|].
    apply elem_of_cons in He as [->|He]; [discriminate Hid|].
    apply elem_of_cons in He as [->|He]; [discriminate Hid|].
    apply elem_of_nil in He. destruct He.
  - destruct (scan_turns_away Decoder.json_decode "s5" "c1" "AB12CD34" "2024-05-01"
                1000000 _ _ Hs eq_refl) as [_ Hrec]; [by vm_compute|].
    destruct (Hrec (active_enrollment "s5" "r5")) as [_ Hnone]; [by vm_compute|].
    apply (Hnone (mk_class "t1" [mk_student "r1" []; mk_student "r2" [];
                                 mk_student "r3" []])); [by vm_compute|].
    intros st Hst. cbn [c_students mk_class] in Hst.
    apply elem_of_cons in Hst as [->|Hst]; [discriminate|].
    apply elem_of_cons in Hst as [->|Hst]; [discriminate|].
    apply elem_of_cons in Hst as [->|Hst]; [discriminate|].
    apply elem_of_nil in Hst. destruct Hst.
Defined.




(** * The file backend *)

Section FileBackendFacts.

Import FileBackend.

Variable listdir : gset string → list string.
Variable isoformat : Time → string.
Variable py_format : json → string.
Variable strftime : Time → string.

(** [os.listdir] lists the entries of the directory. *)
Hypothesis listdir_elem : ∀ X x, x ∈ listdir X ↔ x ∈ X.
(** A string is put as it is. *)
Hypothesis py_format_str : ∀ s, py_format (JStr s) = s.
(** The format of the file name has no part finer than the second; an instant
    is a number of microseconds. *)
Hypothesis strftime_second :
  ∀ t t', t `div` 1000000 = t' `div` 1000000 → strftime t = strftime t'.

Lemma dict_get_setitem (key : string) (v : json) (d : list (string * json)) :
  dict_get key (setitem key v d) = Some v.
Proof.
  induction d as [|[k v'] d IH]; simpl.
  - by rewrite String.eqb_refl.
  - destruct (String.eqb k key) eqn:E; simpl; rewrite E; [done|exact IH].
Qed.

Lemma dict_get_setitem_ne (key key' : string) (v : json) (d : list (string * json)) :
  key' ≠ key → dict_get key' (setitem key v d) = dict_get key' d.
Proof.
  intros Hne. induction d as [|[k v'] d IH]; simpl.
  - destruct (String.eqb key key') eqn:E; [|done].
    apply String.eqb_eq in E. congruence.
  - destruct (String.eqb k key) eqn:E; simpl.
    + apply String.eqb_eq in E. subst k.
      destruct (String.eqb key key') eqn:E'; [|done].
      apply String.eqb_eq in E'. congruence.
    + by rewrite IH.
Qed.

Lemma setitem_not_nil (key : string) (v : json) (d : list (string * json)) :
  setitem key v d ≠ [].
Proof. destruct d as [|[k v'] d]; simpl; [done|]. by destruct (String.eqb k key). Qed.

Lemma dict_get_None {A} (key : string) (d : list (string * A)) :
  key ∉ d.*1 → dict_get key d = None.
Proof.
  induction d as [|[k v] d IH]; simpl; [done|].
  intros Hk. apply not_elem_of_cons in Hk as [Hne Hk].
  destruct (String.eqb k key) eqn:E; [|by apply IH].
  apply String.eqb_eq in E. congruence.
Qed.

Lemma dict_get_update (key : string) (d other : list (string * json)) :
  NoDup other.*1 →
  dict_get key (update d other) =
    match dict_get key other with Some v => Some v | None => dict_get key d end.
Proof.
  unfold update. revert d.
  induction other as [|[k v] other IH]; intros d Hnd; simpl; [done|].
  apply NoDup_cons in Hnd as [Hk Hnd]. simpl in Hk. rewrite IH by done.
  destruct (String.eqb k key) eqn:E.
  - apply String.eqb_eq in E. subst k.
    by rewrite (dict_get_None _ _ Hk), dict_get_setitem.
  - apply String.eqb_neq in E.
    rewrite dict_get_setitem_ne by done. done.
Qed.

Lemma nonempty_Some (d : option (list (string * json))) (x : list (string * json)) :
  nonempty d = Some x ↔ d = Some x ∧ x ≠ [].
Proof.
  destruct d as [[|p l]|]; simpl.
  - split; [done|]. by intros [[= <-] H].
  - split; [by intros [= <-]|]. by intros [H _].
  - split; [done|]. by intros [H _].
Qed.

Lemma first_class_Some (class_id : string) (fs : Files) (teachers : list string)
    (x : list (string * json)) :
  first_class class_id fs teachers = Some x →
  ∃ t, t ∈ teachers ∧ class_files fs !! (t, class_id) = Some x ∧ x ≠ [].
Proof.
  induction teachers as [|t l IH]; simpl; [done|].
  destruct (nonempty (class_files fs !! (t, class_id))) as [y|] eqn:E.
  - intros [= ->]. apply nonempty_Some in E as [E Hx].
    exists t. split; [left | done].
  - intros H. destruct (IH H) as (t' & Ht' & Hfile). exists t'. split; [by right | done].
Qed.

Lemma first_class_None (class_id : string) (fs : Files) (teachers : list string) :
  first_class class_id fs teachers = None ↔
  ∀ t, t ∈ teachers → nonempty (class_files fs !! (t, class_id)) = None.
Proof.
  induction teachers as [|t l IH]; simpl.
  - split; [|done]. intros _ t Ht. by apply elem_of_nil in Ht.
  - destruct (nonempty (class_files fs !! (t, class_id))) as [y|] eqn:E.
    + split; [done|]. intros H. rewrite (H t) in E by left. done.
    + rewrite IH. split.
      * intros H t' [->|Ht']%elem_of_cons; [done | by apply H].
      * intros H t' Ht'. apply H. by right.
Qed.



Lemma get_class_stored (class_id : string) (fs : Files) (x : list (string * json)) :
  get_class listdir class_id fs = Some x →
  ∃ t, t ∈ user_dirs fs ∧ class_files fs !! (t, class_id) = Some x ∧ x ≠ [].
Proof.
  intros H. apply first_class_Some in H as (t & Ht & Hfile).
  exists t. split; [by apply listdir_elem | done].
Qed.


(** X13: an update whose data carry no true ['teacher_id'] is dropped without
    an error when no stored document of the class carries one: no file is
    written. *)
Theorem update_class_dropped (fs : Files) (class_id : string)
    (class_data : list (string * json)) (now : Time) :
  truthy_json (get "teacher_id" class_data) = false →
  (∀ t doc, class_files fs !! (t, class_id) = Some doc →
            truthy_json (get "teacher_id" doc) = false) →
  update_class listdir isoformat class_id class_data now fs = Some fs.
Proof.
  intros Hdata Hstored. unfold update_class. rewrite Hdata. simpl.
  destruct (get_class listdir class_id fs) as [existing|] eqn:E.
  - apply get_class_stored in E as (t & _ & Hfile & _).
    by rewrite (Hstored t existing Hfile).
  - by rewrite Hdata.
Qed.


(** X15: an update whose data name another teacher than the one the class is
    stored under moves nothing: the old file stays as it is beside the new
    one, and [get_class] returns one of the two. *)
Theorem update_class_duplicates (fs : Files) (old_teacher teacher_id class_id : string)
    (old_data class_data : list (string * json)) (now : Time) :
  get "teacher_id" class_data = JStr teacher_id →
  teacher_id ≠ "" →
  old_teacher ≠ teacher_id →
  class_files fs !! (old_teacher, class_id) = Some old_data →
  (∀ t, stored_under class_id t fs → t = old_teacher) →
  ∃ fs',
    update_class listdir isoformat class_id class_data now fs = Some fs'
    ∧ class_files fs' !! (old_teacher, class_id) = Some old_data
    ∧ class_files fs' !! (teacher_id, class_id)
      = Some (stamp isoformat "updated_at" now class_data)
    ∧ (get_class listdir class_id fs' = Some old_data
       ∨ get_class listdir class_id fs'
         = Some (stamp isoformat "updated_at" now class_data)).
Proof.
  intros Hdata Hne Hdiff Hold Honly. assert (truthy_json (JStr teacher_id) = true) as Htrue.
  { simpl. apply String.eqb_neq in Hne. by rewrite Hne. }
  unfold update_class. rewrite Hdata. cbv zeta. rewrite !Htrue. cbn [negb].
  rewrite ?Htrue.
  eexists. split; [reflexivity|].
  match goal with |- context [get_class _ _ ?f] => set (fs' := f) end.
  split; [simpl; by rewrite lookup_insert_ne by congruence|].
  split; [simpl; by rewrite lookup_insert_eq|].
  destruct (get_class listdir class_id fs') as [x|] eqn:E.
  - apply get_class_stored in E as (t & _ & Hfile & _). simpl in Hfile.
    destruct (decide (t = teacher_id)) as [->|Hnt].
    + rewrite lookup_insert_eq in Hfile. right. congruence.
    + rewrite lookup_insert_ne in Hfile by congruence.
      assert (t = old_teacher) as ->.
      { apply Honly. unfold stored_under. by rewrite Hfile. }
      left. congruence.
  - unfold get_class in E. rewrite first_class_None in E.
    assert (teacher_id ∈ listdir (user_dirs fs')) as Hin.
    { apply listdir_elem. simpl. apply elem_of_union; left; by apply elem_of_singleton. }
    specialize (E teacher_id Hin). simpl in E. rewrite lookup_insert_eq in E.
    pose proof (setitem_not_nil "updated_at" (JStr (isoformat now)) class_data) as Hnn.
    unfold stamp in E. destruct (setitem _ _ _); [done | discriminate].
Qed.

Lemma delete_first_class_cases (class_id : string) (fs : Files) (teachers : list string) :
  (delete_first_class class_id fs teachers = fs
   ∧ ∀ t, t ∈ teachers → class_files fs !! (t, class_id) = None)
  ∨ ∃ t, t ∈ teachers ∧ is_Some (class_files fs !! (t, class_id))
         ∧ user_dirs (delete_first_class class_id fs teachers) = user_dirs fs
         ∧ class_files (delete_first_class class_id fs teachers)
           = delete (t, class_id) (class_files fs).
Proof.
  induction teachers as [|t l IH]; simpl.
  - left. split; [done|]. intros t Ht. by apply elem_of_nil in Ht.
  - destruct (class_files fs !! (t, class_id)) as [x|] eqn:E.
    + right. exists t. split; [left|]. rewrite E. by split; [eexists|].
    + destruct IH as [[Heq Hnone]|(t' & Ht' & Hsome & Hdirs & Hfiles)].
      * left. split; [done|]. intros t' [->|Ht']%elem_of_cons; [done | by apply Hnone].
      * right. exists t'. split; [by right | done].
Qed.

(** X16: [delete_class] removes the class, so that [get_class] finds nothing,
    when at most one teacher's directory holds it; the files of other classes
    stay. *)
Theorem deleted_class_is_gone (fs : Files) (class_id : string) :
  (∀ t1 t2, stored_under class_id t1 fs → stored_under class_id t2 fs → t1 = t2) →
  get_class listdir class_id (delete_class listdir class_id fs) = None
  ∧ ∀ t c, c ≠ class_id →
           class_files (delete_class listdir class_id fs) !! (t, c)
           = class_files fs !! (t, c).
Proof.
  intros Hone. unfold delete_class.
  destruct (delete_first_class_cases class_id fs (listdir (user_dirs fs)))
    as [[-> Hnone]|(t & Ht & Hsome & Hdirs & Hfiles)].
  - split; [|done]. apply first_class_None. intros t Ht. by rewrite (Hnone t Ht).
  - split.
    + unfold get_class. apply first_class_None. intros t' _. rewrite Hfiles.
      destruct (decide (t' = t)) as [->|Hne]; [by rewrite lookup_delete_eq|].
      rewrite lookup_delete_ne by congruence.
      destruct (class_files fs !! (t', class_id)) as [y|] eqn:E; [|done].
      destruct Hne. apply Hone; [|done]. unfold stored_under. by rewrite E.
    + intros t' c Hc. rewrite Hfiles. by rewrite lookup_delete_ne by congruence.
Qed.

(** X17: [delete_class] removes one file: a class held by the directories of
    two teachers is still found afterwards. *)
Theorem delete_class_leaves_copy (fs : Files) (class_id t1 t2 : string)
    (x1 x2 : list (string * json)) :
  t1 ≠ t2 →
  t1 ∈ user_dirs fs → t2 ∈ user_dirs fs →
  class_files fs !! (t1, class_id) = Some x1 → x1 ≠ [] →
  class_files fs !! (t2, class_id) = Some x2 → x2 ≠ [] →
  ∃ t x, get_class listdir class_id (delete_class listdir class_id fs) = Some x
         ∧ class_files fs !! (t, class_id) = Some x.
Proof.
  intros Hne Hd1 Hd2 H1 Hx1 H2 Hx2. unfold delete_class.
  destruct (delete_first_class_cases class_id fs (listdir (user_dirs fs)))
    as [[_ Hnone]|(t & Ht & Hsome & Hdirs & Hfiles)].
  { rewrite (Hnone t1) in H1 by (by apply listdir_elem). done. }
  set (fs' := delete_first_class class_id fs (listdir (user_dirs fs))) in *.
  assert (∀ t' x, t' ≠ t → t' ∈ user_dirs fs → class_files fs !! (t', class_id) = Some x →
                  x ≠ [] → is_Some (get_class listdir class_id fs')) as Hfound.
  { intros t' x Hnt Hd Hfile Hx.
    destruct (get_class listdir class_id fs') as [y|] eqn:E; [by eexists|].
    unfold get_class in E. rewrite first_class_None in E.
    assert (t' ∈ listdir (user_dirs fs')) as Hin by (apply listdir_elem; by rewrite Hdirs).
    specialize (E t' Hin). rewrite Hfiles, lookup_delete_ne, Hfile in E by congruence.
    destruct x; [done | discriminate]. }
  assert (is_Some (get_class listdir class_id fs')) as [y Hy].
  { destruct (decide (t1 = t)) as [->|Hnt]; [by apply (Hfound t2 x2) | by apply (Hfound t1 x1)]. }
  pose proof Hy as Hy'. apply get_class_stored in Hy' as (t' & _ & Hfile & _).
  rewrite Hfiles in Hfile. apply lookup_delete_Some in Hfile as [_ Hfile].
  by exists t', y.
Qed.

(** X18: deleting a user removes the user's document and, with the directory,
    every class stored under it: such a class is no longer found, while the
    class files of the other teachers stay. *)
Theorem deleted_user_loses_classes (fs : Files) (user_id : string) :
  user_id ∈ user_dirs fs →
  get_user user_id (delete_user user_id fs) = None
  ∧ (∀ c, (∀ t, stored_under c t fs → t = user_id) →
          get_class listdir c (delete_user user_id fs) = None)
  ∧ (∀ t c, t ≠ user_id →
            class_files (delete_user user_id fs) !! (t, c) = class_files fs !! (t, c)).
Proof.
  intros Hdir. unfold delete_user. rewrite bool_decide_eq_true_2 by done.
  assert (∀ t c, t ≠ user_id →
            filter (λ kv : string * string * list (string * json), kv.1.1 ≠ user_id)
                   (class_files fs) !! (t, c) = class_files fs !! (t, c)) as Hkept.
  { intros t c Hne. apply option_eq. intros x. rewrite map_lookup_filter_Some. simpl.
    split; [by intros [? _] | by intros ?]. }
  split; [|split].
  - unfold get_user. simpl. by rewrite lookup_delete_eq.
  - intros c Honly. unfold get_class. apply first_class_None. intros t _. simpl.
    destruct (decide (t = user_id)) as [->|Hne].
    + destruct (filter _ (class_files fs) !! (user_id, c)) as [x|] eqn:E; [|done].
      apply map_lookup_filter_Some in E as [_ Hno]. by destruct Hno.
    + rewrite Hkept by done.
      destruct (class_files fs !! (t, c)) as [y|] eqn:E; [|done].
      destruct Hne. apply Honly. unfold stored_under. by rewrite E.
  - intros t c Hne. simpl. by apply Hkept.
Qed.

Lemma py_eq_str_iff (s : string) (v : json) : py_eq_str s v = true ↔ v = JStr s.
Proof.
  destruct v; simpl; try (split; [discriminate | by intros [=]]).
  rewrite String.eqb_eq. split; [by intros -> | by intros [= ->]].
Qed.

Lemma first_user_with_Some (email : string) (fs : Files) (ids : list string)
    (user : list (string * json)) :
  first_user_with email fs ids = Some user →
  ∃ user_id, user_id ∈ ids ∧ get_user user_id fs = Some user
             ∧ get "email" user = JStr email.
Proof.
  induction ids as [|i l IH]; simpl; [done|].
  destruct (nonempty (get_user i fs)) as [u|] eqn:E.
  - destruct (py_eq_str email (get "email" u)) eqn:Heq.
    + intros [= ->]. apply nonempty_Some in E as [E _]. apply py_eq_str_iff in Heq.
      exists i. split; [left | done].
    + intros H. destruct (IH H) as (i' & Hi' & Hrest). exists i'. split; [by right | done].
  - intros H. destruct (IH H) as (i' & Hi' & Hrest). exists i'. split; [by right | done].
Qed.

Lemma first_user_with_None (email : string) (fs : Files) (ids : list string) :
  first_user_with email fs ids = None ↔
  ∀ user_id user, user_id ∈ ids → get_user user_id fs = Some user → user ≠ [] →
                  get "email" user ≠ JStr email.
Proof.
  induction ids as [|i l IH]; simpl.
  - split; [|done]. intros _ i u Hi. by apply elem_of_nil in Hi.
  - destruct (nonempty (get_user i fs)) as [u|] eqn:E.
    + apply nonempty_Some in E as [E Hu].
      destruct (py_eq_str email (get "email" u)) eqn:Heq.
      * split; [done|]. intros H. apply py_eq_str_iff in Heq.
        destruct (H i u); [left | done | done | done].
      * rewrite IH. split.
        -- intros H i' u' [->|Hi']%elem_of_cons Hget Hne.
           ++ assert (u' = u) as -> by congruence. intros Hemail.
              apply py_eq_str_iff in Hemail. congruence.
           ++ by apply (H i').
        -- intros H i' u' Hi'. apply H. by right.
    + rewrite IH. split.
      * intros H i' u' [->|Hi']%elem_of_cons Hget Hne.
        -- rewrite Hget in E. destruct u'; [done | discriminate].
        -- by apply (H i').
      * intros H i' u' Hi'. apply H. by right.
Qed.

(** X19: [get_user_by_email] returns a stored user document with that email,
    and returns [None] exactly when no non-empty user document has it. *)
Theorem get_user_by_email_finds (fs : Files) (email : string) :
  dirs_ok fs →
  (∀ user, get_user_by_email listdir email fs = Some user →
           ∃ user_id, get_user user_id fs = Some user ∧ get "email" user = JStr email)
  ∧ (get_user_by_email listdir email fs = None ↔
     ∀ user_id user, get_user user_id fs = Some user → user ≠ [] →
                     get "email" user ≠ JStr email).
Proof.
  intros [Hdirs _]. unfold get_user_by_email. split.
  - intros user H. apply first_user_with_Some in H as (i & _ & Hrest). by exists i.
  - rewrite first_user_with_None. split.
    + intros H i u Hget. apply (H i u); [|done].
      apply listdir_elem, Hdirs. unfold get_user in Hget. by rewrite Hget.
    + intros H i u _. by apply H.
Qed.

(** X20: [update_user] and [update_student] replace the stored document by
    the data given: apart from the ['updated_at'] stamp every key is read
    back as in the data, so a key of the stored document that the data lack,
    ['created_at'] for one, is lost. *)
Theorem update_replaces_document (fs : Files) (id : string)
    (data : list (string * json)) (now : Time) :
  (∃ doc, get_user id (update_user isoformat id data now fs) = Some doc
          ∧ dict_get "updated_at" doc = Some (JStr (isoformat now))
          ∧ ∀ k, k ≠ "updated_at" → dict_get k doc = dict_get k data)
  ∧ (∃ doc, get_student id (update_student isoformat id data now fs) = Some doc
          ∧ dict_get "updated_at" doc = Some (JStr (isoformat now))
          ∧ ∀ k, k ≠ "updated_at" → dict_get k doc = dict_get k data).
Proof.
  split; eexists; (split; [simpl; unfold get_user, get_student; simpl;
                           by rewrite lookup_insert_eq|]);
    (split; [apply dict_get_setitem | intros k Hk; by apply dict_get_setitem_ne]).
Qed.

(** X21: an enrollment whose ['class_id'] is a string is appended, stamped, to
    the enrollments of that class; the enrollments of other classes stay. *)
Theorem created_enrollment_is_appended (fs : Files) (class_id : string)
    (enrollment_data : list (string * json)) (now : Time) :
  get "class_id" enrollment_data = JStr class_id →
  get_enrollments class_id (create_enrollment isoformat py_format enrollment_data now fs)
  = get_enrollments class_id fs ++ [stamp isoformat "created_at" now enrollment_data]
  ∧ ∀ c, c ≠ class_id →
         get_enrollments c (create_enrollment isoformat py_format enrollment_data now fs)
         = get_enrollments c fs.
Proof.
  intros Hc. unfold create_enrollment. rewrite Hc, py_format_str. split.
  - unfold get_enrollments at 1. simpl. by rewrite lookup_insert_eq.
  - intros c Hne. unfold get_enrollments at 1. simpl.
    by rewrite lookup_insert_ne by congruence.
Qed.

Lemma update_first_none (student_id : string) (patch : list (string * json)) (now : Time)
    (l : list (list (string * json))) :
  (∀ x, x ∈ l → get "student_id" x ≠ JStr student_id) →
  update_first isoformat student_id patch now l = l.
Proof.
  induction l as [|x l IH]; intros H; simpl; [done|].
  destruct (py_eq_str student_id (get "student_id" x)) eqn:E.
  - apply py_eq_str_iff in E. destruct (H x); [left | done].
  - rewrite IH; [done|]. intros y Hy. apply H. by right.
Qed.

Lemma update_first_split (student_id : string) (patch : list (string * json)) (now : Time)
    (pre post : list (list (string * json))) (e : list (string * json)) :
  (∀ x, x ∈ pre → get "student_id" x ≠ JStr student_id) →
  get "student_id" e = JStr student_id →
  update_first isoformat student_id patch now (pre ++ e :: post)
  = pre ++ stamp isoformat "updated_at" now (update e patch) :: post.
Proof.
  intros Hpre He. induction pre as [|x pre IH]; simpl.
  - apply py_eq_str_iff in He. by rewrite He.
  - destruct (py_eq_str student_id (get "student_id" x)) eqn:E.
    + apply py_eq_str_iff in E. destruct (Hpre x); [left | done].
    + rewrite IH; [done|]. intros y Hy. apply Hpre. by right.
Qed.

(** X22: [update_enrollment] changes the first enrollment of the student in
    the class and no other, also when a later one is of the same student: its
    keys take the values of the data, the other keys keep theirs, and
    ['updated_at'] is stamped; the enrollments of other classes stay. *)
Theorem update_enrollment_first_match (fs : Files) (class_id student_id : string)
    (patch : list (string * json)) (now : Time)
    (pre post : list (list (string * json))) (e : list (string * json)) :
  NoDup patch.*1 →
  get_enrollments class_id fs = pre ++ e :: post →
  (∀ x, x ∈ pre → get "student_id" x ≠ JStr student_id) →
  get "student_id" e = JStr student_id →
  ∃ e',
    get_enrollments class_id (update_enrollment isoformat class_id student_id patch now fs)
    = pre ++ e' :: post
    ∧ dict_get "updated_at" e' = Some (JStr (isoformat now))
    ∧ (∀ k, k ≠ "updated_at" →
            dict_get k e' = match dict_get k patch with
                            | Some v => Some v
                            | None => dict_get k e
                            end)
    ∧ ∀ c, c ≠ class_id →
           get_enrollments c (update_enrollment isoformat class_id student_id patch now fs)
           = get_enrollments c fs.
Proof.
  intros Hnd Hlist Hpre He.
  exists (stamp isoformat "updated_at" now (update e patch)). split; [|split; [|split]].
  - unfold update_enrollment. rewrite Hlist, update_first_split by done.
    unfold get_enrollments. simpl. by rewrite lookup_insert_eq.
  - apply dict_get_setitem.
  - intros k Hk. unfold stamp. rewrite dict_get_setitem_ne by done.
    by apply dict_get_update.
  - intros c Hne. unfold update_enrollment, get_enrollments at 1. simpl.
    by rewrite lookup_insert_ne by congruence.
Qed.

(** X23: [update_enrollment] for a student with no enrollment in the class
    changes no enrollment and raises nothing. *)
Theorem update_enrollment_no_match (fs : Files) (class_id student_id : string)
    (patch : list (string * json)) (now : Time) :
  (∀ x, x ∈ get_enrollments class_id fs → get "student_id" x ≠ JStr student_id) →
  ∀ c, get_enrollments c (update_enrollment isoformat class_id student_id patch now fs)
       = get_enrollments c fs.
Proof.
  intros Hnone c. unfold update_enrollment. rewrite update_first_none by done.
  unfold get_enrollments at 1. simpl.
  destruct (decide (c = class_id)) as [->|Hne].
  - by rewrite lookup_insert_eq.
  - by rewrite lookup_insert_ne by congruence.
Qed.

Lemma list_ascii_app (s1 s2 : string) :
  String.list_ascii_of_string (s1 +:+ s2)
  = String.list_ascii_of_string s1 ++ String.list_ascii_of_string s2.
Proof. induction s1 as [|a s1 IH]; simpl; [done | by rewrite IH]. Qed.

Lemma list_ascii_inj (s1 s2 : string) :
  String.list_ascii_of_string s1 = String.list_ascii_of_string s2 → s1 = s2.
Proof.
  intros H. rewrite <- (String.string_of_list_ascii_of_string s1),
    <- (String.string_of_list_ascii_of_string s2). by rewrite H.
Qed.

(** The last underscore of a name splits it. *)
Lemma split_last_underscore (c1 c2 d1 d2 : list Ascii.ascii) :
  "_"%char ∉ d1 → "_"%char ∉ d2 →
  c1 ++ "_"%char :: d1 = c2 ++ "_"%char :: d2 → c1 = c2 ∧ d1 = d2.
Proof.
  intros H1 H2. revert c2.
  induction c1 as [|a c1 IH]; intros [|b c2] Heq; simpl in Heq.
  - by injection Heq as ->.
  - injection Heq as <- ->. destruct H1. apply elem_of_app. right. left.
  - injection Heq as -> <-. destruct H2. apply elem_of_app. right. left.
  - injection Heq as -> Heq. destruct (IH c2 Heq) as [-> ->]. done.
Qed.

Lemma qr_session_file_inj (c1 d1 c2 d2 : string) :
  no_underscore d1 → no_underscore d2 →
  qr_session_file c1 d1 = qr_session_file c2 d2 → c1 = c2 ∧ d1 = d2.
Proof.
  unfold no_underscore, qr_session_file. intros H1 H2 Heq.
  apply String.app_inj in Heq.
  apply (f_equal String.list_ascii_of_string) in Heq.
  rewrite !list_ascii_app in Heq.
  change (String.list_ascii_of_string "_") with ["_"%char] in Heq. simpl in Heq.
  apply split_last_underscore in Heq as [Hc Hd].
  - split; [by apply list_ascii_inj|].
    apply app_inv_tail in Hd. by apply list_ascii_inj.
  - intros [H|H]%elem_of_app; [done|]. vm_compute in H.
    repeat (apply elem_of_cons in H as [H|H]; [discriminate H|]).
    by apply elem_of_nil in H.
  - intros [H|H]%elem_of_app; [done|]. vm_compute in H.
    repeat (apply elem_of_cons in H as [H|H]; [discriminate H|]).
    by apply elem_of_nil in H.
Qed.

(** X24: with dates that have no underscore, writing the session of one class
    and date is read back under that class and date, stamped by an update and
    as given by a create, and leaves the session of every other class and
    date as it was. *)
Theorem qr_session_files_apart (fs : Files) (class_id date class_id' date' : string)
    (session_data : list (string * json)) (now : Time) :
  no_underscore date → no_underscore date' →
  get_qr_session class_id date
    (update_qr_session isoformat class_id' date' session_data now fs)
  = (if decide ((class_id, date) = (class_id', date'))
     then Some (stamp isoformat "updated_at" now session_data)
     else get_qr_session class_id date fs)
  ∧ get_qr_session class_id date (create_qr_session class_id' date' session_data fs)
    = (if decide ((class_id, date) = (class_id', date'))
       then Some session_data
       else get_qr_session class_id date fs).
Proof.
  intros Hd Hd'. unfold get_qr_session, update_qr_session, create_qr_session. simpl.
  destruct (decide ((class_id, date) = (class_id', date'))) as [[= -> ->]|Hne].
  - by rewrite !lookup_insert_eq.
  - rewrite !lookup_insert_ne; [done| |].
    + intros Heq. symmetry in Heq. apply qr_session_file_inj in Heq as [-> ->]; done.
    + intros Heq. symmetry in Heq. apply qr_session_file_inj in Heq as [-> ->]; done.
Qed.

(** X25: the file of a QR session is named by joining class id and date with
    an underscore, so two sessions share a file when their ids and dates join
    to the same name: what is written for one is read for the other. *)
Theorem qr_sessions_may_share_a_file (fs : Files) (class_id x date : string)
    (session_data : list (string * json)) :
  get_qr_session class_id (x +:+ "_" +:+ date)
    (create_qr_session (class_id +:+ "_" +:+ x) date session_data fs)
  = Some session_data.
Proof.
  unfold get_qr_session, create_qr_session. simpl.
  replace (qr_session_file (class_id +:+ "_" +:+ x) date)
    with (qr_session_file class_id (x +:+ "_" +:+ date)).
  - by rewrite lookup_insert_eq.
  - unfold qr_session_file. f_equal. apply list_ascii_inj.
    rewrite !list_ascii_app. by rewrite <- !app_assoc.
Qed.

Lemma elem_of_class_ids (teacher_id class_id : string) (fs : Files) :
  class_id ∈ class_ids teacher_id fs ↔ is_Some (class_files fs !! (teacher_id, class_id)).
Proof.
  unfold class_ids. rewrite elem_of_list_to_set, list_elem_of_omap. split.
  - intros ([t c] & Hin & Hk). simpl in Hk.
    destruct (decide (t = teacher_id)) as [->|]; [|done]. injection Hk as ->.
    by apply elem_of_elements, elem_of_dom in Hin.
  - intros H. exists (teacher_id, class_id). split.
    + by apply elem_of_elements, elem_of_dom.
    + simpl. by rewrite decide_True.
Qed.

(** X26: [get_all_classes] lists the non-empty class documents stored under
    the teacher, and nothing else. *)
Theorem get_all_classes_lists (fs : Files) (teacher_id : string)
    (x : list (string * json)) :
  x ∈ get_all_classes listdir teacher_id fs ↔
  x ≠ [] ∧ ∃ class_id, class_files fs !! (teacher_id, class_id) = Some x.
Proof.
  unfold get_all_classes. rewrite list_elem_of_omap. split.
  - intros (c & _ & Hc). apply nonempty_Some in Hc as [Hc Hx]. split; [done|by exists c].
  - intros [Hx [c Hc]]. exists c. split.
    + apply listdir_elem, elem_of_class_ids. by rewrite Hc.
    + apply nonempty_Some. done.
Qed.

(** X27: of two contact messages saved within the same second the first
    leaves no trace: the files are as if only the second had been saved. *)
Theorem contact_message_overwritten (fs : Files) (m1 m2 : list (string * json))
    (now1 now1' now2 now2' : Time) :
  now1 `div` 1000000 = now2 `div` 1000000 →
  save_contact_message isoformat strftime m2 now2 now2'
    (save_contact_message isoformat strftime m1 now1 now1' fs)
  = save_contact_message isoformat strftime m2 now2 now2' fs.
Proof.
  intros Hsec. unfold save_contact_message. simpl.
  rewrite (strftime_second now1 now2 Hsec). by rewrite insert_insert_eq.
Qed.

End FileBackendFacts.

Lemma listdir_elements (X : gset string) (x : string) : x ∈ elements X ↔ x ∈ X.
Proof. apply elem_of_elements. Qed.

Lemma stored_under_files_class (t : string) :
  FileBackend.stored_under "c1" t files_class → t = "t1".
Proof.
  intros [x Hx]. unfold files_class in Hx. simpl in Hx.
  apply lookup_insert_Some in Hx as [[[= <-] _]|[_ Hx]]; [done|].
  by rewrite lookup_empty in Hx.
Qed.


Lemma update_class_dropped_witness :
  FileBackend.update_class elements pretty "c1" [("name", JStr "Algebra")] 9 files_class
  = Some files_class.
Proof.
  apply (update_class_dropped elements pretty listdir_elements); [reflexivity|].
  intros t doc Hdoc. unfold files_class in Hdoc. simpl in Hdoc.
  apply lookup_insert_Some in Hdoc as [[_ <-]|[_ Hdoc]]; [reflexivity|].
  by rewrite lookup_empty in Hdoc.
Defined.


Lemma update_class_duplicates_witness :
  ∃ fs',
    FileBackend.update_class elements pretty "c1"
      [("teacher_id", JStr "t2"); ("name", JStr "Algebra")] 9 files_class = Some fs'
    ∧ FileBackend.class_files fs' !! ("t1", "c1")
      = Some [("name", JStr "Maths"); ("created_at", JStr "5")]
    ∧ FileBackend.class_files fs' !! ("t2", "c1")
      = Some [("teacher_id", JStr "t2"); ("name", JStr "Algebra"); ("updated_at", JStr "9")].
Proof.
  destruct (update_class_duplicates elements pretty listdir_elements files_class "t1" "t2"
              "c1" [("name", JStr "Maths"); ("created_at", JStr "5")]
              [("teacher_id", JStr "t2"); ("name", JStr "Algebra")] 9)
    as (fs' & Hup & Hold & Hnew & _);
    [reflexivity | discriminate | discriminate | by vm_compute
    | apply stored_under_files_class |].
  exists fs'. split; [exact Hup|]. split; [exact Hold | exact Hnew].
Defined.

Lemma deleted_class_is_gone_witness :
  FileBackend.get_class elements "c1" (FileBackend.delete_class elements "c1" files_class)
  = None.
Proof.
  destruct (deleted_class_is_gone elements files_class "c1") as [Hgone _]; [|exact Hgone].
  intros t1 t2 H1 H2.
  apply stored_under_files_class in H1. apply stored_under_files_class in H2. congruence.
Defined.

Lemma delete_class_leaves_copy_witness :
  ∃ t x,
    FileBackend.get_class elements "c1" (FileBackend.delete_class elements "c1" files_twice)
    = Some x
    ∧ FileBackend.class_files files_twice !! (t, "c1") = Some x.
Proof.
  apply (delete_class_leaves_copy elements listdir_elements files_twice "c1" "t1" "t2"
           [("name", JStr "Maths"); ("created_at", JStr "5")]
           [("name", JStr "Physics"); ("created_at", JStr "6")]);
    try discriminate; try (by vm_compute);
    apply (bool_decide_unpack _); by vm_compute.
Defined.

Lemma deleted_user_loses_classes_witness :
  FileBackend.get_class elements "c1" (FileBackend.delete_user "t1" files_class) = None.
Proof.
  destruct (deleted_user_loses_classes elements files_class "t1")
    as (_ & Hclasses & _); [apply (bool_decide_unpack _); by vm_compute|].
  apply Hclasses. apply stored_under_files_class.
Defined.

Lemma dirs_ok_no_files : FileBackend.dirs_ok FileBackend.no_files.
Proof.
  split; [intros u [x Hx] | intros t c [x Hx]]; simpl in Hx; by rewrite lookup_empty in Hx.
Qed.

Lemma dirs_ok_create_user (isoformat : Time → string) (user_id : string)
    (user_data : list (string * json)) (now : Time) (fs : FileBackend.Files) :
  FileBackend.dirs_ok fs →
  FileBackend.dirs_ok (FileBackend.create_user isoformat user_id user_data now fs).
Proof.
  intros [Hu Hc]. split; simpl.
  - intros u Hsome. apply lookup_insert_is_Some in Hsome as [->|[_ Hsome]].
    + apply elem_of_union. left. by apply elem_of_singleton.
    + apply elem_of_union. right. by apply Hu.
  - intros t c Hsome. apply elem_of_union. right. by apply (Hc t c).
Qed.

Lemma get_user_by_email_finds_witness :
  (∀ user, FileBackend.get_user_by_email elements "b@x.org" files_users = Some user →
           FileBackend.get "email" user = JStr "b@x.org")
  ∧ FileBackend.get_user_by_email elements "c@x.org" files_users = None.
Proof.
  assert (FileBackend.dirs_ok files_users) as Hok.
  { apply dirs_ok_create_user, dirs_ok_create_user, dirs_ok_no_files. }
  split.
  - destruct (get_user_by_email_finds elements listdir_elements files_users "b@x.org" Hok)
      as [Hfound _].
    intros user Huser. destruct (Hfound user Huser) as (user_id & _ & Hemail). exact Hemail.
  - destruct (get_user_by_email_finds elements listdir_elements files_users "c@x.org" Hok)
      as [_ Hnone].
    apply Hnone. intros user_id user Hget _. unfold files_users in Hget.
    unfold FileBackend.get_user in Hget. simpl in Hget.
    apply lookup_insert_Some in Hget as [[_ <-]|[_ Hget]]; [discriminate|].
    apply lookup_insert_Some in Hget as [[_ <-]|[_ Hget]]; [discriminate|].
    by rewrite lookup_empty in Hget.
Defined.

Lemma created_enrollment_is_appended_witness :
  FileBackend.get_enrollments "c1"
    (FileBackend.create_enrollment pretty FileBackend.format_plain
       (enrollment_doc "s3" "active") 4 files_enrolled)
  = FileBackend.get_enrollments "c1" files_enrolled
    ++ [enrollment_doc "s3" "active" ++ [("created_at", JStr "4")]].
Proof.
  destruct (created_enrollment_is_appended pretty FileBackend.format_plain
              (λ s, eq_refl) files_enrolled "c1" (enrollment_doc "s3" "active") 4)
    as [Happ _]; [reflexivity|].
  rewrite Happ. by vm_compute.
Defined.

Lemma update_enrollment_first_match_witness :
  ∃ e',
    FileBackend.get_enrollments "c1"
      (FileBackend.update_enrollment pretty "c1" "s1" [("status", JStr "dropped")] 8
         files_enrolled)
    = [enrollment_doc "s2" "active" ++ [("created_at", JStr "1")]]
      ++ e' :: [enrollment_doc "s1" "inactive" ++ [("created_at", JStr "3")]]
    ∧ dict_get "status" e' = Some (JStr "dropped")
    ∧ dict_get "created_at" e' = Some (JStr "2").
Proof.
  destruct (update_enrollment_first_match pretty files_enrolled "c1" "s1"
              [("status", JStr "dropped")] 8
              [enrollment_doc "s2" "active" ++ [("created_at", JStr "1")]]
              [enrollment_doc "s1" "inactive" ++ [("created_at", JStr "3")]]
              (enrollment_doc "s1" "active" ++ [("created_at", JStr "2")]))
    as (e' & Hlist & _ & Hkeys & _).
  - apply NoDup_cons. split; [by intros H%elem_of_nil | apply NoDup_nil_2].
  - reflexivity.
  - intros x Hx. apply elem_of_cons in Hx as [->|Hx]; [discriminate|].
    by apply elem_of_nil in Hx.
  - reflexivity.
  - exists e'. split; [exact Hlist|].
    split; [by rewrite (Hkeys "status") | by rewrite (Hkeys "created_at")].
Defined.

Lemma update_enrollment_no_match_witness :
  FileBackend.get_enrollments "c1"
    (FileBackend.update_enrollment pretty "c1" "s9" [("status", JStr "dropped")] 8
       files_enrolled)
  = FileBackend.get_enrollments "c1" files_enrolled.
Proof.
  apply (update_enrollment_no_match pretty files_enrolled "c1" "s9").
  intros x Hx.
  change (x ∈ [enrollment_doc "s2" "active" ++ [("created_at", JStr "1")];
               enrollment_doc "s1" "active" ++ [("created_at", JStr "2")];
               enrollment_doc "s1" "inactive" ++ [("created_at", JStr "3")]]) in Hx.
  apply elem_of_cons in Hx as [->|Hx]; [discriminate|].
  apply elem_of_cons in Hx as [->|Hx]; [discriminate|].
  apply elem_of_cons in Hx as [->|Hx]; [discriminate|].
  by apply elem_of_nil in Hx.
Defined.

Lemma no_underscore_date : no_underscore "2024-05-01".
Proof.
  unfold no_underscore. intros H. vm_compute in H.
  repeat (apply elem_of_cons in H as [H|H]; [discriminate H|]).
  by apply elem_of_nil in H.
Qed.

Lemma qr_session_files_apart_witness :
  FileBackend.get_qr_session "c1" "2024-05-01"
    (FileBackend.update_qr_session pretty "c1_2024" "2024-05-01" [("status", JStr "active")] 3
       (FileBackend.create_qr_session "c1" "2024-05-01" [("status", JStr "stopped")]
          FileBackend.no_files))
  = Some [("status", JStr "stopped")].
Proof.
  destruct (qr_session_files_apart pretty
              (FileBackend.create_qr_session "c1" "2024-05-01" [("status", JStr "stopped")]
                 FileBackend.no_files)
              "c1" "2024-05-01" "c1_2024" "2024-05-01" [("status", JStr "active")] 3
              no_underscore_date no_underscore_date) as [Hup _].
  rewrite Hup. rewrite decide_False by discriminate.
  unfold FileBackend.get_qr_session, FileBackend.create_qr_session. simpl.
  by rewrite lookup_insert_eq.
Defined.

Lemma get_all_classes_lists_witness :
  [("name", JStr "Maths"); ("created_at", JStr "5")]
  ∈ FileBackend.get_all_classes elements "t1" files_twice.
Proof.
  apply (get_all_classes_lists elements listdir_elements files_twice "t1").
  split; [discriminate|]. exists "c1". by vm_compute.
Defined.

Lemma contact_message_overwritten_witness :
  FileBackend.contact_files
    (FileBackend.save_contact_message pretty (λ t, pretty (t `div` 1000000))
       [("message", JStr "second")] 5400000 5400010
       (FileBackend.save_contact_message pretty (λ t, pretty (t `div` 1000000))
          [("message", JStr "first")] 5100000 5100010 FileBackend.no_files))
  = {[ "5" := [("message", JStr "second"); ("created_at", JStr "5400010")] ]}.
Proof.
  rewrite (contact_message_overwritten pretty (λ t, pretty (t `div` 1000000))
             (λ t t' H, f_equal pretty H) FileBackend.no_files
             [("message", JStr "first")] [("message", JStr "second")]
             5100000 5100010 5400000 5400010); [|reflexivity].
  apply map_eq. intros k. simpl.
  change (pretty (5400000 `div` 1000000)) with "5".
  change (FileBackend.stamp pretty "created_at" 5400010 [("message", JStr "second")])
    with [("message", JStr "second"); ("created_at", JStr "5400010")].
  by rewrite insert_empty.
Defined.
